(** * The Makefile-Learning HTTP server (main.go), embedded in Rocq

    The program is one Go file: [main] fixes the port, registers three
    handlers on net/http's default multiplexer, logs a start line, and
    calls [http.ListenAndServe]; when that returns an error, [log.Fatal]
    prints it and exits with status 1.

    What is embedded from main.go: the constants [defaultPort] and
    [version], the handlers [handleRoot], [handleHealth], [handleVersion]
    and [main].

    What is modelled of the Go libraries the file calls (fmt, log,
    net/http), as far as main.go uses them:
    - [fmt.Sprintf]/[fmt.Fprintf] for the verbs [%s] and [%%];
    - [http.ResponseWriter]: [WriteHeader] and [Write] on a record that
      remembers whether the header has been written, the status and the
      bytes the handler wrote.  A connection that was hijacked and a
      response that declared a Content-Length are not in the record: the
      handlers of main.go do neither;
    - [http.ServeMux] for patterns that are plain paths (no method, host,
      wildcard or escape, which is all main.go registers): registration
      with its conflict panic, matching on the unescaped segments of the
      request path, most-specific match, the redirect for a subtree root
      named without its slash, and the redirect of a request whose path
      is not in canonical form.  A request is what the server's reader
      hands on, given by the escaped path of its URL; the asterisk form
      has the path [*];
    - the server around the multiplexer: it answers a request with an
      expectation it does not meet, and OPTIONS for the asterisk, by
      itself, and it sends no body in answer to a HEAD request.  [served]
      is what the multiplexer and the handlers make of the requests,
      [received] is what the server sends to the clients.  Of the
      answers that are not a handler's, the kind is modelled, not the
      headers and the body.  What the server logs by itself is not
      modelled;
    - [http.ListenAndServe] against an environment that says whether the
      bind succeeds, which requests are handled, and whether accepting
      ends with an error.  Requests are handled one after the other;
    - [log.Printf], [log.Fatal]: one entry per call on the modelled
      standard error stream, without the timestamp prefix. *)

From Stdlib Require Import ZArith Ascii String List Bool Lia.
From stdpp Require Import base option list strings gmap.

Local Open Scope Z_scope.

(** ** Strings *)

Module Str.

(** The line feed, written [\n] in Go string literals. *)
Definition nl : string := String "010"%char EmptyString.

Definition slash : ascii := "/"%char.

(** [strings.HasPrefix s pre]. *)
Definition hasPrefix (s pre : string) : bool := String.prefix pre s.

(** The last byte of a string, if any. *)
Fixpoint last (s : string) : option ascii :=
  match s with
  | EmptyString => None
  | String c EmptyString => Some c
  | String _ s' => last s'
  end.

(** [strings.HasSuffix s "/"]. *)
Definition endsWithSlash (s : string) : bool :=
  match last s with
  | Some c => bool_decide (c = slash)
  | None => false
  end.

(** [strings.Split s "/"]: the pieces of [s] between slashes. *)
Fixpoint split (s : string) : list string :=
  match s with
  | EmptyString => [EmptyString]
  | String c s' =>
      if bool_decide (c = slash) then EmptyString :: split s'
      else match split s' with
           | x :: xs => String c x :: xs
           | [] => [String c EmptyString]
           end
  end.

(** [strings.Join xs "/"]. *)
Fixpoint join (xs : list string) : string :=
  match xs with
  | [] => ""
  | [x] => x
  | x :: xs' => x +:+ "/" +:+ join xs'
  end.

(** [strings.Count s "/"]. *)
Fixpoint countSlash (s : string) : nat :=
  match s with
  | EmptyString => O
  | String c s' => if bool_decide (c = slash) then S (countSlash s') else countSlash s'
  end.

(** Decimal digits, as [strconv] reads a port number. *)
Definition digit (c : ascii) : option Z :=
  let n := Z.of_nat (nat_of_ascii c) in
  if (48 <=? n) && (n <=? 57) then Some (n - 48) else None.

Fixpoint atoi_from (acc : Z) (s : string) : option Z :=
  match s with
  | EmptyString => Some acc
  | String c s' =>
      match digit c with
      | Some d => atoi_from (10 * acc + d) s'
      | None => None
      end
  end.

Definition atoi (s : string) : option Z :=
  match s with
  | EmptyString => None
  | _ => atoi_from 0 s
  end.

End Str.

(** ** fmt *)

(** [fmt.Sprintf] for string arguments: [%s] takes the next argument,
    [%%] is a percent sign, a [%s] without argument prints Go's
    [%!s(MISSING)]. *)
Fixpoint Sprintf (format : string) (args : list string) : string :=
  match format with
  | EmptyString => ""
  | String "%"%char (String "s"%char rest) =>
      match args with
      | a :: args' => a +:+ Sprintf rest args'
      | [] => "%!s(MISSING)" +:+ Sprintf rest []
      end
  | String "%"%char (String "%"%char rest) => String "%"%char (Sprintf rest args)
  | String c rest => String c (Sprintf rest args)
  end.

(** ** Computations with state that may stop early *)

(** Why a computation stopped before its end: a Go panic, [os.Exit], or
    blocking for good (the accept loop of a server nobody stops). *)
Inductive Stop : Type :=
| Panicked (msg : string)
| Exited (code : Z)
| Blocked.

Inductive Res (S A : Type) : Type :=
| Ret (a : A) (s : S)
| Halt (why : Stop) (s : S).
Arguments Ret {S A} a s.
Arguments Halt {S A} why s.

Definition M (S A : Type) : Type := S -> Res S A.

Definition ret {S A} (a : A) : M S A := fun s => Ret a s.

Definition bind {S A B} (m : M S A) (k : A -> M S B) : M S B :=
  fun s => match m s with
           | Ret a s' => k a s'
           | Halt why s' => Halt why s'
           end.

Definition get {S} : M S S := fun s => Ret s s.
Definition modify {S} (f : S -> S) : M S unit := fun s => Ret tt (f s).
Definition halt {S A} (why : Stop) : M S A := fun s => Halt why s.

Declare Scope go_scope.
Delimit Scope go_scope with go.
Notation "x <- m ;; k" := (bind m (fun x => k))
  (at level 100, m at next level, right associativity) : go_scope.
Notation "m ;; k" := (bind m (fun _ => k))
  (at level 100, right associativity) : go_scope.
Local Open Scope go_scope.

(** The state a computation ends in, however it ends. *)
Definition finalState {S A} (r : Res S A) : S :=
  match r with Ret _ s => s | Halt _ s => s end.

(** How a computation ended: [None] when it ran to its end. *)
Definition stopped {S A} (r : Res S A) : option Stop :=
  match r with Ret _ _ => None | Halt why _ => Some why end.

(** ** net/http: requests and the response writer *)

Record URL : Type := mkURL {
  Path : string;       (* the escaped path of the request target *)
  RawQuery : string    (* the query, without the question mark *)
}.

(** A request as the server's reader hands it on.  What the reader refuses
    (a malformed request line, a missing or malformed Host header, an
    invalid header field) never becomes a request. *)
Record Request : Type := mkRequest {
  Method : string;
  url : URL;
  Host : string;
  Header : list (string * string);
  Body : string
}.

(** The server's [http.response], as a handler can change it. *)
Record response : Type := mkResponse {
  wroteHeader : bool;
  status : Z;
  informational : list Z;   (* 1xx headers sent ahead of the response *)
  written : string          (* the body bytes accepted by [Write] *)
}.

Definition freshResponse : response :=
  {| wroteHeader := false; status := 0; informational := []; written := "" |}.

(** What a handler runs on: the response it writes, and the server's error
    log, which every request of the process shares. *)
Record Conn : Type := mkConn {
  w : response;
  errorLog : list string
}.

Definition HandlerFunc : Type := Request -> M Conn unit.

Definition StatusOK : Z := 200.

Inductive WriteError : Type := ErrBodyNotAllowed.

(** [checkWriteHeaderCode]: WriteHeader panics on a code outside 100..999. *)
Definition validHeaderCode (code : Z) : bool := (100 <=? code) && (code <=? 999).

Definition bodyAllowedForStatus (st : Z) : bool :=
  if (100 <=? st) && (st <=? 199) then false
  else if st =? 204 then false
  else if st =? 304 then false
  else true.

(** [w.WriteHeader(code)].  The line logged on a superfluous call is given
    up to the name and position of the caller, which Go adds to it. *)
Definition WriteHeader (code : Z) : M Conn unit :=
  c <- get ;;
  if wroteHeader (w c) then
    modify (fun c => {| w := w c;
                        errorLog := errorLog c ++
                          ["http: superfluous response.WriteHeader call"] |})
  else if negb (validHeaderCode code) then
    halt (Panicked "invalid WriteHeader code")
  else if (code <=? 199) && negb (code =? 101) then
    modify (fun c => {| w := {| wroteHeader := false; status := status (w c);
                                informational := informational (w c) ++ [code];
                                written := written (w c) |};
                        errorLog := errorLog c |})
  else
    modify (fun c => {| w := {| wroteHeader := true; status := code;
                                informational := informational (w c);
                                written := written (w c) |};
                        errorLog := errorLog c |}).

(** [w.Write(data)]: the first write sends the header with status 200 when
    the handler has sent none; the result is the count of bytes taken and
    the error, if any. *)
Definition Write (data : string) : M Conn (Z * option WriteError) :=
  c <- get ;;
  (if wroteHeader (w c) then ret tt else WriteHeader StatusOK) ;;
  c <- get ;;
  if bool_decide (data = "") then ret (0, None)
  else if negb (bodyAllowedForStatus (status (w c))) then
    ret (0, Some ErrBodyNotAllowed)
  else
    modify (fun c => {| w := {| wroteHeader := wroteHeader (w c);
                                status := status (w c);
                                informational := informational (w c);
                                written := written (w c) +:+ data |};
                        errorLog := errorLog c |}) ;;
    ret (Z.of_nat (String.length data), None).

(** [fmt.Fprintf(w, format, args...)]: one [Write] of the formatted text. *)
Definition Fprintf (format : string) (args : list string)
  : M Conn (Z * option WriteError) :=
  Write (Sprintf format args).

(** ** main.go: constants and handlers *)

Definition defaultPort : string := "8080".
Definition version : string := "1.0.0".

Definition handleRoot : HandlerFunc := fun r =>
  _ <- Fprintf ("Hello! Welcome to the Go Makefile Project!" +:+ Str.nl) [] ;;
  ret tt.

Definition handleHealth : HandlerFunc := fun r =>
  WriteHeader StatusOK ;;
  _ <- Fprintf ("OK" +:+ Str.nl) [] ;;
  ret tt.

Definition handleVersion : HandlerFunc := fun r =>
  _ <- Fprintf ("Version: %s" +:+ Str.nl) [version] ;;
  ret tt.

(** ** net/http: the request multiplexer *)

(** The registered patterns with their handlers.  The patterns of this
    model are plain paths: one that ends in a slash names a subtree (it
    matches every path it is a prefix of), any other matches that path
    only. *)
Abbreviation ServeMux := (gmap string HandlerFunc).

(** [mux.HandleFunc(pattern, handler)]: panics on the empty pattern and on a
    pattern that conflicts with a registered one (for plain paths: the same
    pattern twice). *)
Definition register (pattern : string) (handler : HandlerFunc) (mux : ServeMux)
  : Res ServeMux unit :=
  if bool_decide (pattern = "") then Halt (Panicked "http: invalid pattern") mux
  else match mux !! pattern with
       | Some _ => Halt (Panicked ("pattern conflicts: " +:+ pattern)) mux
       | None => Ret tt (<[pattern := handler]> mux)
       end.

(** One step of [path.Clean] on a rooted path; [stack] holds the segments
    kept so far, the last one first.  Empty and [.] segments are dropped,
    [..] removes the segment before it, and is dropped at the root. *)
Definition cleanStep (stack : list string) (seg : string) : list string :=
  if bool_decide (seg = "") || bool_decide (seg = ".") then stack
  else if bool_decide (seg = "..") then tail stack
  else seg :: stack.

(** [path.Clean(p)] for a path that begins with a slash. *)
Definition pathCleanRooted (p : string) : string :=
  String Str.slash (Str.join (rev (fold_left cleanStep (Str.split p) []))).

(** [cleanPath] of net/http: the canonical form of a request path, which
    keeps a trailing slash. *)
Definition cleanPath (p : string) : string :=
  if bool_decide (p = "") then "/"
  else
    let p := if Str.hasPrefix p "/" then p else "/" +:+ p in
    let np := pathCleanRooted p in
    if Str.endsWithSlash p && negb (bool_decide (np = "/")) then np +:+ "/"
    else np.

(** A string without a slash: one segment of a path. *)
Fixpoint noSlash (s : string) : bool :=
  match s with
  | EmptyString => true
  | String c s' => negb (bool_decide (c = Str.slash)) && noSlash s'
  end.

(** The value of a hexadecimal digit. *)
Definition hexValue (c : ascii) : option nat :=
  let n := nat_of_ascii c in
  if ((48 <=? n) && (n <=? 57))%nat then Some (n - 48)%nat
  else if ((97 <=? n) && (n <=? 102))%nat then Some (n - 87)%nat
  else if ((65 <=? n) && (n <=? 70))%nat then Some (n - 55)%nat
  else None.

(** [url.PathUnescape]: every [%XY] becomes the byte it writes; a percent
    sign that two hexadecimal digits do not follow is an error. *)
Fixpoint unescape (s : string) : option string :=
  match s with
  | EmptyString => Some EmptyString
  | String "%"%char (String a (String b rest)) =>
      match hexValue a, hexValue b with
      | Some x, Some y =>
          match unescape rest with
          | Some t => Some (String (ascii_of_nat (16 * x + y)) t)
          | None => None
          end
      | _, _ => None
      end
  | String "%"%char _ => None
  | String c rest =>
      match unescape rest with
      | Some t => Some (String c t)
      | None => None
      end
  end.

(** [pathUnescape] of the routing tree: the segment as it is when it cannot
    be unescaped. *)
Definition pathUnescape (seg : string) : string :=
  match unescape seg with
  | Some t => t
  | None => seg
  end.

(** The segments the routing tree reads off a path, one [firstSegment]
    after the other: the pieces between the slashes, each unescaped.  A
    path that does not begin with a slash has none. *)
Definition pathSegments (path : string) : option (list string) :=
  match path with
  | String "/"%char rest => Some (map pathUnescape (Str.split rest))
  | _ => None
  end.

(** The plain pattern that has the given segments, a last empty segment
    standing for the slash that ends a subtree pattern.  No plain pattern
    has a segment with a slash in it. *)
Definition keyOf (segs : list string) : option string :=
  if forallb noSlash segs then Some (String Str.slash (Str.join segs)) else None.

(** The prefixes of a list short of the list itself, the shortest first. *)
Fixpoint properPrefixes (segs : list string) : list (list string) :=
  match segs with
  | [] => []
  | x :: rest => [] :: map (cons x) (properPrefixes rest)
  end.

(** The patterns that match a path with the given segments, the most
    specific first: the path itself, then the subtrees it lies in, from
    the deepest to the root. *)
Definition matching (segs : list string) : list (list string) :=
  segs :: map (fun pre => pre ++ [""]) (rev (properPrefixes segs)).

Definition lookupPattern (mux : ServeMux) (segs : list string)
  : option (string * HandlerFunc) :=
  match keyOf segs with
  | Some pat =>
      match mux !! pat with
      | Some h => Some (pat, h)
      | None => None
      end
  | None => None
  end.

(** The first registered pattern of a list of candidates. *)
Fixpoint firstRegistered (mux : ServeMux) (cands : list (list string))
  : option (string * HandlerFunc) :=
  match cands with
  | [] => None
  | segs :: rest =>
      match lookupPattern mux segs with
      | Some n => Some n
      | None => firstRegistered mux rest
      end
  end.

(** [mux.tree.match] for plain patterns: the most specific registered
    pattern that matches [path]. *)
Definition matchPath (mux : ServeMux) (path : string)
  : option (string * HandlerFunc) :=
  match pathSegments path with
  | Some segs => firstRegistered mux (matching segs)
  | None => None
  end.

(** [exactMatch]: the match is not one of a subtree pattern against a
    longer path.  A plain pattern has as many segments as slashes. *)
Definition exactMatch (n : option (string * HandlerFunc)) (path : string) : bool :=
  match n with
  | None => false
  | Some (pat, _) =>
      if negb (Str.endsWithSlash pat) then true
      else (bool_decide (path = "") || Str.endsWithSlash path)
           && Nat.eqb (Str.countSlash pat) (Str.countSlash path)
  end.

(** [mux.matchOrRedirect]: the match for [path], or the URL to redirect to
    when only [path/] is registered.  Without [u] no redirect is tried; nor
    is it for the empty path, which a CONNECT request for an authority
    has: the server answers those with its 404 page. *)
Definition matchOrRedirect (mux : ServeMux) (path : string) (u : option URL)
  : option (string * HandlerFunc) + URL :=
  let n := matchPath mux path in
  match u with
  | Some u =>
      if negb (exactMatch n path) && negb (Str.endsWithSlash path)
         && Str.hasPrefix path "/" then
        let path' := path +:+ "/" in
        if exactMatch (matchPath mux path') path' then
          inr {| Path := cleanPath (Path u) +:+ "/"; RawQuery := RawQuery u |}
        else inl n
      else inl n
  | None => inl n
  end.

(** What the multiplexer decides for a request. *)
Inductive Routed : Type :=
| ToHandler (pattern : string) (h : HandlerFunc)
| ToRedirect (target : URL)
| ToNotFound.

(** [mux.findHandler(r)].  CONNECT requests are matched on the path as it
    came; for every other method the path is cleaned first, and a request
    whose path was not clean is redirected to the clean one. *)
Definition findHandler (mux : ServeMux) (r : Request) : Routed :=
  let escapedPath := Path (url r) in
  if bool_decide (Method r = "CONNECT") then
    match matchOrRedirect mux escapedPath (Some (url r)) with
    | inr u => ToRedirect u
    | inl _ =>
        match matchOrRedirect mux escapedPath None with
        | inl (Some (pat, h)) => ToHandler pat h
        | _ => ToNotFound
        end
    end
  else
    let path := cleanPath escapedPath in
    match matchOrRedirect mux path (Some (url r)) with
    | inr u => ToRedirect u
    | inl n =>
        if negb (bool_decide (path = escapedPath)) then
          ToRedirect {| Path := path; RawQuery := RawQuery (url r) |}
        else match n with
             | Some (pat, h) => ToHandler pat h
             | None => ToNotFound
             end
    end.

(** ** net/http: serving one request *)

(** The answer to a request: what a registered handler wrote; or one of the
    answers of the multiplexer (its redirect, with the URL value it
    redirects to, its 404 page, its 400 for the asterisk) or of the server
    (its 417); or none when the handler did not return.  Of the answers
    that are not a handler's, headers and bodies are not modelled. *)
Inductive Response : Type :=
| Written (resp : response)
| Redirected (target : URL)
| NotFoundPage
| BadRequestPage
| ExpectationFailed
| Aborted (msg : string)
| Unfinished.

(** The status of a handler's answer. *)
Definition statusCode (a : Response) : option Z :=
  match a with
  | Written resp => Some (status resp)
  | _ => None
  end.

(** The response with status 200 and the given body, nothing else sent. *)
Definition ok200 (body : string) : Response :=
  Written {| wroteHeader := true; status := StatusOK;
             informational := []; written := body |}.

(** When the handler returns without having sent a header, the server
    sends status 200. *)
Definition finishRequest (resp : response) : response :=
  if wroteHeader resp then resp
  else {| wroteHeader := true; status := StatusOK;
          informational := informational resp; written := written resp |}.

(** The process: the default multiplexer, the standard error stream (the
    log package and the server's error log both write there), and the
    history of what the process did on the network. *)
Record Proc : Type := mkProc {
  DefaultServeMux : ServeMux;
  stderr : list string;
  binds : list string;                     (* addresses given to net.Listen *)
  exchanges : list (Request * Response)    (* requests served, in order *)
}.

Definition initialProc : Proc :=
  {| DefaultServeMux := ∅; stderr := []; binds := []; exchanges := [] |}.

Definition answered (p : Proc) (r : Request) (a : Response) (log : list string) : Proc :=
  {| DefaultServeMux := DefaultServeMux p; stderr := log;
     binds := binds p; exchanges := exchanges p ++ [(r, a)] |}.

(** [mux.ServeHTTP] on a fresh response, with the server's recovery around
    it: the asterisk is a bad request; otherwise the multiplexer picks the
    handler and the handler runs.  The state is the error log.  A panicking
    handler is recovered and logged, and the process goes on; a handler
    that exits takes the process with it. *)
Definition ServeHTTP (mux : ServeMux) (r : Request) : M (list string) Response :=
  fun log =>
    if bool_decide (Path (url r) = "*") then Ret BadRequestPage log else
    match findHandler mux r with
    | ToHandler _ h =>
        match h r {| w := freshResponse; errorLog := log |} with
        | Ret _ c => Ret (Written (finishRequest (w c))) (errorLog c)
        | Halt (Panicked msg) c =>
            Ret (Aborted msg) (errorLog c ++ ["http: panic serving: " +:+ msg])
        | Halt (Exited code) c => Halt (Exited code) (errorLog c)
        | Halt Blocked c => Ret Unfinished (errorLog c)
        end
    | ToRedirect u => Ret (Redirected u) log
    | ToNotFound => Ret NotFoundPage log
    end.

(** One request through the server with a nil handler, which stands for
    the default multiplexer. *)
Definition serveRequest (r : Request) : M Proc unit := fun p =>
  match ServeHTTP (DefaultServeMux p) r (stderr p) with
  | Ret a log => Ret tt (answered p r a log)
  | Halt why log => Halt why (answered p r Unfinished log)
  end.

Fixpoint serveAll (rs : list Request) : M Proc unit :=
  match rs with
  | [] => ret tt
  | r :: rs' => serveRequest r ;; serveAll rs'
  end.

(** ** The environment of the process *)

Record Env : Type := mkEnv {
  bindError : string -> option string;  (* the error of net.Listen on an address *)
  incoming : list Request;              (* the requests that arrive and are handled
                                           before the process ends, in that order *)
  acceptError : option string           (* the error that ends accepting, if any *)
}.

(** [http.HandleFunc]: registration on the default multiplexer. *)
Definition HandleFunc (pattern : string) (handler : HandlerFunc) : M Proc unit :=
  fun p =>
    match register pattern handler (DefaultServeMux p) with
    | Ret _ mux' => Ret tt {| DefaultServeMux := mux'; stderr := stderr p;
                              binds := binds p; exchanges := exchanges p |}
    | Halt why _ => Halt why p
    end.

(** [log.Printf]. *)
Definition log_Printf (format : string) (args : list string) : M Proc unit :=
  modify (fun p => {| DefaultServeMux := DefaultServeMux p;
                      stderr := stderr p ++ [Sprintf format args];
                      binds := binds p; exchanges := exchanges p |}).

(** [log.Fatal(err)]: print, then [os.Exit(1)]. *)
Definition log_Fatal {A} (err : string) : M Proc A :=
  modify (fun p => {| DefaultServeMux := DefaultServeMux p;
                      stderr := stderr p ++ [err];
                      binds := binds p; exchanges := exchanges p |}) ;;
  halt (Exited 1).

(** [http.ListenAndServe(addr, nil)]: the error it returns is never nil.
    It returns at once when the bind fails; otherwise it serves what
    arrives and returns only when accepting fails. *)
Definition ListenAndServe (env : Env) (addr : string) : M Proc (option string) :=
  modify (fun p => {| DefaultServeMux := DefaultServeMux p; stderr := stderr p;
                      binds := binds p ++ [addr]; exchanges := exchanges p |}) ;;
  match bindError env addr with
  | Some err => ret (Some err)
  | None =>
      serveAll (incoming env) ;;
      match acceptError env with
      | Some err => ret (Some err)
      | None => halt Blocked
      end
  end.

(** ** main.go: main *)

Section Main.

(** The constant [defaultPort], as a variable of [main]'s body. *)
Variable defaultPort' : string.

Definition main_with (env : Env) : M Proc unit :=
  let port := "3000" in
  let port := if bool_decide (port = "") then defaultPort' else port in
  HandleFunc "/" handleRoot ;;
  HandleFunc "/health" handleHealth ;;
  HandleFunc "/version" handleVersion ;;
  log_Printf "Starting server on port %s..." [port] ;;
  err <- ListenAndServe env (":" +:+ port) ;;
  match err with
  | Some err => log_Fatal err
  | None => ret tt
  end.

End Main.

Definition main : Env -> M Proc unit := main_with defaultPort.

(** A run of the program from process start. *)
Definition run (env : Env) : Res Proc unit := main env initialProc.

(** The requests a run served, each with its answer, in order. *)
Definition served (env : Env) : list (Request * Response) :=
  exchanges (finalState (run env)).

(** ** net/http: the server around the multiplexer *)

(** [Header.Get]: the first value under a key, the empty string when the
    key is absent.  The keys of a request are in canonical form. *)
Fixpoint headerGet (key : string) (h : list (string * string)) : string :=
  match h with
  | [] => ""
  | (k, v) :: rest => if bool_decide (k = key) then v else headerGet key rest
  end.

Definition isTokenBoundary (b : ascii) : bool :=
  bool_decide (b = " "%char) || bool_decide (b = ","%char)
  || bool_decide (b = "009"%char).

(** The lower-case form of an ASCII letter. *)
Definition lower (b : ascii) : ascii :=
  let n := nat_of_ascii b in
  if ((65 <=? n) && (n <=? 90))%nat then ascii_of_nat (n + 32) else b.

Fixpoint equalFold (s t : string) : bool :=
  match s, t with
  | EmptyString, EmptyString => true
  | String a s', String b t' => bool_decide (lower a = lower b) && equalFold s' t'
  | _, _ => false
  end.

(** Whether [token] stands in [v] at position [sp], between boundaries. *)
Definition tokenAt (v token : string) (sp : nat) : bool :=
  let n := String.length token in
  match String.get sp v, String.get 0 token with
  | Some b, Some t0 =>
      (bool_decide (b = t0)
       || bool_decide (ascii_of_nat (Nat.lor (nat_of_ascii b) 32) = t0))
      && match sp with
         | O => true
         | S before => match String.get before v with
                       | Some c => isTokenBoundary c
                       | None => false
                       end
         end
      && match String.get (sp + n) v with
         | Some c => isTokenBoundary c
         | None => Nat.eqb (sp + n) (String.length v)
         end
      && equalFold (String.substring sp n v) token
  | _, _ => false
  end.

(** [hasToken] of net/http: [token] is one of the tokens of the header
    value [v], in any case of letters. *)
Definition hasToken (v token : string) : bool :=
  if (String.length v <? String.length token)%nat || bool_decide (token = "") then false
  else if bool_decide (v = token) then true
  else existsb (tokenAt v token)
         (seq 0 (S (String.length v - String.length token))).

(** The server answers 417 by itself when the request states an
    expectation other than [100-continue]. *)
Definition expectationFails (r : Request) : bool :=
  negb (hasToken (headerGet "Expect" (Header r)) "100-continue")
  && negb (bool_decide (headerGet "Expect" (Header r) = "")).

(** The handler's response as the server sends it: without the body when
    the request is a HEAD request. *)
Definition transmit (r : Request) (resp : response) : response :=
  if bool_decide (Method r = "HEAD") then
    {| wroteHeader := wroteHeader resp; status := status resp;
       informational := informational resp; written := "" |}
  else resp.

(** What the server sends in answer to a request, given what the
    multiplexer and the handler made of it: the server answers a failed
    expectation and OPTIONS for the asterisk itself, without asking the
    multiplexer. *)
Definition onWire (r : Request) (a : Response) : Response :=
  if expectationFails r then ExpectationFailed
  else if bool_decide (Method r = "OPTIONS") && bool_decide (Path (url r) = "*") then
    Written {| wroteHeader := true; status := StatusOK;
               informational := []; written := "" |}
  else match a with
       | Written resp => Written (transmit r resp)
       | _ => a
       end.

(** The requests of a run, each with what the server sent in answer. *)
Definition received (env : Env) : list (Request * Response) :=
  map (fun ra => (fst ra, onWire (fst ra) (snd ra))) (served env).

(** ** Reading the constants *)

(** A TCP port number in decimal: an integer from 1 to 65535. *)
Definition validPort (s : string) : Prop :=
  exists n : Z, Str.atoi s = Some n /\ 1 <= n <= 65535.

(** ** Names for what the proofs talk about *)

(** The table [main] leaves in the default multiplexer. *)
Definition routes : ServeMux :=
  <["/version" := handleVersion]>
    (<["/health" := handleHealth]> (<["/" := handleRoot]> ∅)).

(** The answer of that table to a request. *)
Definition reply (r : Request) : Response :=
  match ServeHTTP routes r [] with
  | Ret a _ => a
  | Halt _ _ => Unfinished
  end.

(** A path with every segment unescaped, when no segment then holds a
    slash: the plain pattern that would match it exactly. *)
Definition decodedPath (path : string) : option string :=
  match pathSegments path with
  | Some segs => keyOf segs
  | None => None
  end.

(** The handler [routes] gives to a rooted path that needs no redirect. *)
Definition routeOf (p : string) : Routed :=
  if bool_decide (decodedPath p = Some "/version") then ToHandler "/version" handleVersion
  else if bool_decide (decodedPath p = Some "/health") then ToHandler "/health" handleHealth
  else ToHandler "/" handleRoot.

(** The request states no expectation, or the one the server meets. *)
Definition noUnmetExpectation (r : Request) : Prop :=
  headerGet "Expect" (Header r) = "" \/ headerGet "Expect" (Header r) = "100-continue".

(** The response with status 200 and nothing in the body. *)
Definition bare200 : Response := ok200 "".

(** How a run ends once the listener is bound. *)
Definition afterAccept (env : Env) : Stop :=
  match acceptError env with
  | Some _ => Exited 1
  | None => Blocked
  end.

Definition welcome : string :=
  "Hello! Welcome to the Go Makefile Project!" +:+ Str.nl.

Definition startLine : string := "Starting server on port 3000...".

(** A request as a client sends it to this server, and two environments:
    one where the port is free, one where it is taken. *)
Definition request (method path : string) : Request :=
  {| Method := method; url := {| Path := path; RawQuery := "" |};
     Host := "localhost:3000"; Header := []; Body := "" |}.

(** The same with an expectation the server does not meet. *)
Definition expecting (method path : string) : Request :=
  {| Method := method; url := {| Path := path; RawQuery := "" |};
     Host := "localhost:3000"; Header := [("Expect", "a-cup-of-tea")]; Body := "" |}.

Definition portFree (rs : list Request) : Env :=
  {| bindError := fun _ => None; incoming := rs; acceptError := None |}.

Definition portTaken (rs : list Request) : Env :=
  {| bindError := fun _ => Some "listen tcp :3000: bind: address already in use";
     incoming := rs; acceptError := None |}.

(** ** Names for the further properties *)

(** A segment that [path.Clean] keeps. *)
Definition keptSegment (s : string) : Prop :=
  s <> "" /\ s <> "." /\ s <> ".." /\ noSlash s = true.

(** The request a client sends when it follows a redirect to [u]: the same
    request, for the new target. *)
Definition follow (r : Request) (u : URL) : Request :=
  {| Method := Method r; url := u; Host := Host r;
     Header := Header r; Body := Body r |}.

(** One of the three paths [main] registers. *)
Definition registeredPath (path : string) : Prop :=
  path = "/" \/ path = "/health" \/ path = "/version".

(** Whether a byte occurs in a string. *)
Fixpoint occurs (c : ascii) (s : string) : bool :=
  match s with
  | EmptyString => false
  | String c' s' => bool_decide (c' = c) || occurs c s'
  end.

(** A pattern that is a plain path: it begins with a slash and has no
    blank, so it names no method and no host, and it has neither a wildcard
    nor an escape. *)
Definition plainPattern (pat : string) : Prop :=
  Str.hasPrefix pat "/" = true
  /\ occurs " "%char pat = false /\ occurs "009"%char pat = false
  /\ occurs "{"%char pat = false /\ occurs "%"%char pat = false.

(** An environment where the bind succeeds and accepting fails later. *)
Definition listenerCloses (rs : list Request) : Env :=
  {| bindError := fun _ => None; incoming := rs;
     acceptError := Some "accept tcp [::]:3000: use of closed network connection" |}.

(** A handler of some other package, which panics. *)
Definition foreignHandler : HandlerFunc := fun r => halt (Panicked "foreign").

(** A process in which another package registered a subtree before [main]
    runs, and one in which it took the pattern [/health]. *)
Definition foreignProc : Proc :=
  {| DefaultServeMux := <["/debug/" := foreignHandler]> ∅;
     stderr := []; binds := []; exchanges := [] |}.

Definition takenProc : Proc :=
  {| DefaultServeMux := <["/health" := foreignHandler]> ∅;
     stderr := []; binds := []; exchanges := [] |}.

(** * Proofs *)

(** ** Strings *)

Lemma append_assoc (a b c : string) : (a +:+ b) +:+ c = a +:+ (b +:+ c).
Proof.
  induction a as [|x a IH]; [reflexivity|].
  change ((String x a +:+ b) +:+ c) with (String x ((a +:+ b) +:+ c)).
  change (String x a +:+ (b +:+ c)) with (String x (a +:+ (b +:+ c))).
  now rewrite IH.
Qed.

Lemma last_app_slash (s : string) : Str.last (s +:+ "/") = Some Str.slash.
Proof.
  induction s as [|c s IH]; [reflexivity|].
  destruct s as [|c' s]; [reflexivity|].
  exact IH.
Qed.

Lemma endsWithSlash_app_slash (s : string) : Str.endsWithSlash (s +:+ "/") = true.
Proof. unfold Str.endsWithSlash. now rewrite last_app_slash. Qed.

Lemma app_slash_not_empty (s : string) : s +:+ "/" <> "".
Proof. now destruct s. Qed.

Lemma countSlash_app_slash (s : string) :
  Str.countSlash (s +:+ "/") = S (Str.countSlash s).
Proof.
  induction s as [|c s IH]; [reflexivity|].
  change (String c s +:+ "/") with (String c (s +:+ "/")).
  cbn [Str.countSlash]. rewrite IH. now case_bool_decide.
Qed.

Lemma hasPrefix_slash (p : string) :
  Str.hasPrefix p "/" = true -> exists s, p = String Str.slash s.
Proof.
  destruct p as [|c s]; [discriminate|].
  unfold Str.hasPrefix. cbn [String.prefix].
  destruct (ascii_dec _ c) as [<-|]; [eauto | discriminate].
Qed.

Lemma hasPrefix_rooted (t : string) : Str.hasPrefix (String Str.slash t) "/" = true.
Proof.
  unfold Str.hasPrefix. cbn [String.prefix].
  destruct (ascii_dec _ _) as [|Hne]; [now destruct t | now exfalso; apply Hne].
Qed.

Lemma cleanPath_rooted (p : string) : exists s, cleanPath p = String Str.slash s.
Proof.
  unfold cleanPath. case_bool_decide; [eauto|].
  unfold pathCleanRooted.
  destruct (_ && _); cbn; eauto.
Qed.

(** The canonical form of some request paths. *)
Example cleanPath_samples :
  map cleanPath [""; "/"; "//foo"; "/a/b/"; "/a/../health"; "/health/extra"; "/x/./y"]
    = ["/"; "/"; "/foo"; "/a/b/"; "/health"; "/health/extra"; "/x/y"].
Proof. vm_compute. reflexivity. Qed.

Lemma split_not_nil (s : string) : Str.split s <> [].
Proof.
  induction s as [|c s IH]; [discriminate|].
  cbn. case_bool_decide; [discriminate|].
  destruct (Str.split s); discriminate.
Qed.

Lemma split_noSlash (s : string) :
  Forall (fun x => noSlash x = true) (Str.split s).
Proof.
  induction s as [|c s IH]; [repeat constructor|].
  cbn. case_bool_decide as Hc; [now constructor|].
  destruct (Str.split s) as [|x xs].
  - repeat constructor. cbn. now rewrite bool_decide_eq_false_2.
  - inversion IH as [|? ? Hx Hxs]; subst. constructor; [|exact Hxs].
    cbn. now rewrite bool_decide_eq_false_2, Hx.
Qed.

Lemma split_segment (x : string) : noSlash x = true -> Str.split x = [x].
Proof.
  induction x as [|c x IH]; [reflexivity|].
  cbn [noSlash Str.split]. intros [Hc Hx]%andb_prop.
  apply negb_true_iff, bool_decide_eq_false in Hc.
  rewrite bool_decide_eq_false_2, (IH Hx) by exact Hc. reflexivity.
Qed.

Lemma split_segment_slash (x t : string) :
  noSlash x = true -> Str.split (x +:+ String Str.slash t) = x :: Str.split t.
Proof.
  induction x as [|c x IH]; [reflexivity|].
  change (String c x +:+ String Str.slash t) with (String c (x +:+ String Str.slash t)).
  cbn [noSlash Str.split]. intros [Hc Hx]%andb_prop.
  apply negb_true_iff, bool_decide_eq_false in Hc.
  rewrite bool_decide_eq_false_2, (IH Hx) by exact Hc. reflexivity.
Qed.

Lemma split_join (segs : list string) :
  Forall (fun x => noSlash x = true) segs -> segs <> [] ->
  Str.split (Str.join segs) = segs.
Proof.
  induction segs as [|x segs IH]; [congruence|].
  intros Hall _. inversion Hall as [|? ? Hx Hrest]; subst.
  destruct segs as [|y rest]; [now apply split_segment|].
  change (Str.join (x :: y :: rest))
    with (x +:+ String Str.slash (Str.join (y :: rest))).
  rewrite (split_segment_slash _ _ Hx), IH; [reflexivity | exact Hrest | discriminate].
Qed.

Lemma split_app_slash (s : string) : Str.split (s +:+ "/") = Str.split s ++ [""].
Proof.
  induction s as [|c s IH]; [reflexivity|].
  change (String c s +:+ "/") with (String c (s +:+ "/")).
  cbn [Str.split]. rewrite IH. case_bool_decide; [reflexivity|].
  pose proof (split_not_nil s). destruct (Str.split s); [congruence | reflexivity].
Qed.

Lemma join_snoc_empty (pre : list string) :
  pre <> [] -> Str.join (pre ++ [""]) = Str.join pre +:+ "/".
Proof.
  induction pre as [|x pre IH]; [congruence|]. intros _.
  destruct pre as [|y rest].
  - change (Str.join ([x] ++ [""])) with (x +:+ "/" +:+ ""). reflexivity.
  - change (Str.join ((x :: y :: rest) ++ [""]))
      with (x +:+ "/" +:+ Str.join ((y :: rest) ++ [""])).
    rewrite IH by discriminate.
    change (Str.join (x :: y :: rest)) with (x +:+ "/" +:+ Str.join (y :: rest)).
    now rewrite !append_assoc.
Qed.

(** ** Plain patterns *)

Lemma keyOf_Some (segs : list string) (k : string) :
  keyOf segs = Some k ->
  Forall (fun x => noSlash x = true) segs /\ k = String Str.slash (Str.join segs).
Proof.
  unfold keyOf. destruct (forallb noSlash segs) eqn:E; [|discriminate].
  intros [= <-]. split; [|reflexivity].
  apply List.Forall_forall. now apply forallb_forall.
Qed.

(** A plain pattern has the segments it was made of. *)
Lemma keyOf_inj (segs segs' : list string) (k : string) :
  segs <> [] -> segs' <> [] ->
  keyOf segs = Some k -> keyOf segs' = Some k -> segs = segs'.
Proof.
  intros Hne Hne' [Hall ->]%keyOf_Some [Hall' [= Hj]]%keyOf_Some.
  now rewrite <- (split_join segs Hall Hne), <- (split_join segs' Hall' Hne'), Hj.
Qed.

Lemma keyOf_subtree (pre : list string) (k : string) :
  keyOf (pre ++ [""]) = Some k -> Str.endsWithSlash k = true.
Proof.
  intros [_ ->]%keyOf_Some. destruct pre as [|x pre]; [reflexivity|].
  rewrite join_snoc_empty by discriminate.
  apply (endsWithSlash_app_slash (String Str.slash (Str.join (x :: pre)))).
Qed.

Lemma pathSegments_rooted (rest : string) :
  pathSegments (String Str.slash rest) = Some (map pathUnescape (Str.split rest)).
Proof. reflexivity. Qed.

Lemma segments_not_nil (rest : string) : map pathUnescape (Str.split rest) <> [].
Proof.
  pose proof (split_not_nil rest). now destruct (Str.split rest).
Qed.

Lemma pathSegments_app_slash (rest : string) :
  pathSegments (String Str.slash (rest +:+ "/"))
  = Some (map pathUnescape (Str.split rest) ++ [""]).
Proof. rewrite pathSegments_rooted, split_app_slash, map_app. reflexivity. Qed.

(** A path with a slash at its end is no path of a pattern without. *)
Lemma decodedPath_app_slash (rest k : string) :
  decodedPath (String Str.slash (rest +:+ "/")) = Some k ->
  Str.endsWithSlash k = true.
Proof.
  unfold decodedPath. rewrite pathSegments_app_slash. apply keyOf_subtree.
Qed.

(** ** The routing table of main *)

Lemma routes_lookup (k : string) :
  routes !! k =
    if bool_decide (k = "/version") then Some handleVersion
    else if bool_decide (k = "/health") then Some handleHealth
    else if bool_decide (k = "/") then Some handleRoot
    else None.
Proof.
  unfold routes. rewrite !lookup_insert, lookup_empty.
  repeat case_decide; repeat case_bool_decide; congruence.
Qed.

Lemma routes_subtree (k : string) :
  Str.endsWithSlash k = true -> k <> "/" -> routes !! k = None.
Proof.
  intros Hk Hne. rewrite routes_lookup.
  repeat case_bool_decide; subst; try discriminate; congruence.
Qed.

(** Among subtree patterns, the table of main has the root only. *)
Lemma firstRegistered_subtrees (cands : list (list string)) :
  (forall c k, In c cands -> keyOf c = Some k -> Str.endsWithSlash k = true) ->
  (exists c, In c cands /\ keyOf c = Some "/") ->
  firstRegistered routes cands = Some ("/", handleRoot).
Proof.
  induction cands as [|c cands IH]; intros Hall [c0 [Hin Hc0]]; [contradiction|].
  cbn [firstRegistered]. unfold lookupPattern.
  destruct (keyOf c) as [k|] eqn:Hk.
  - destruct (decide (k = "/")) as [->|Hne]; [reflexivity|].
    rewrite routes_subtree; [| apply (Hall c k); [now left | exact Hk] | exact Hne].
    apply IH; [intros c' k' Hc'; apply Hall; now right|].
    exists c0. split; [|exact Hc0].
    destruct Hin as [<-|Hin]; [congruence | exact Hin].
  - apply IH; [intros c' k' Hc'; apply Hall; now right|].
    exists c0. split; [|exact Hc0].
    destruct Hin as [<-|Hin]; [congruence | exact Hin].
Qed.

Lemma properPrefixes_nil (segs : list string) :
  segs <> [] -> In [] (properPrefixes segs).
Proof. destruct segs; [congruence | now left]. Qed.

Lemma subtrees_of_routes (segs : list string) :
  segs <> [] ->
  firstRegistered routes (map (fun pre => pre ++ [""]) (rev (properPrefixes segs)))
  = Some ("/", handleRoot).
Proof.
  intros Hne. apply firstRegistered_subtrees.
  - intros c k [pre [<- _]]%in_map_iff. apply keyOf_subtree.
  - exists [""]. split; [|reflexivity].
    apply in_map_iff. exists []. split; [reflexivity|].
    apply -> in_rev. now apply properPrefixes_nil.
Qed.

Lemma matchPath_rooted (rest : string) :
  let p := String Str.slash rest in
  matchPath routes p =
    if bool_decide (decodedPath p = Some "/version") then Some ("/version", handleVersion)
    else if bool_decide (decodedPath p = Some "/health") then Some ("/health", handleHealth)
    else Some ("/", handleRoot).
Proof.
  intros p. unfold matchPath, decodedPath, p. rewrite pathSegments_rooted.
  set (segs := map pathUnescape (Str.split rest)).
  assert (Hne : segs <> []) by apply segments_not_nil.
  unfold matching. cbn [firstRegistered]. unfold lookupPattern.
  destruct (keyOf segs) as [k|].
  - rewrite routes_lookup.
    repeat case_bool_decide; subst; try congruence;
      now rewrite ?subtrees_of_routes.
  - repeat case_bool_decide; try discriminate. now apply subtrees_of_routes.
Qed.

(** A rooted path is never the target of the redirect for a subtree root
    named without its slash: the only subtree main registers is the root. *)
Lemma matchOrRedirect_rooted (rest : string) (u : option URL) :
  matchOrRedirect routes (String Str.slash rest) u
    = inl (matchPath routes (String Str.slash rest)).
Proof.
  unfold matchOrRedirect. destruct u as [u|]; [|reflexivity].
  destruct (negb _ && negb _ && _); [|reflexivity].
  change (String Str.slash rest +:+ "/") with (String Str.slash (rest +:+ "/")).
  rewrite (matchPath_rooted (rest +:+ "/")).
  rewrite (bool_decide_eq_false_2 (_ = Some "/version")),
    (bool_decide_eq_false_2 (_ = Some "/health"));
    try (intros H%decodedPath_app_slash; discriminate).
  unfold exactMatch. change (Str.endsWithSlash "/") with true. cbn [negb].
  change (String Str.slash (rest +:+ "/")) with (String Str.slash rest +:+ "/").
  rewrite countSlash_app_slash.
  change (Str.countSlash (String Str.slash rest)) with (S (Str.countSlash rest)).
  change (Str.countSlash "/") with 1%nat. cbn [Nat.eqb].
  now rewrite andb_false_r.
Qed.

Lemma routed_matchPath (rest : string) :
  match matchPath routes (String Str.slash rest) with
  | Some (pat, h) => ToHandler pat h
  | None => ToNotFound
  end = routeOf (String Str.slash rest).
Proof.
  rewrite matchPath_rooted. unfold routeOf.
  repeat case_bool_decide; reflexivity.
Qed.

Lemma findHandler_connect_rooted (r : Request) (s : string) :
  Method r = "CONNECT" -> Path (url r) = String Str.slash s ->
  findHandler routes r = routeOf (String Str.slash s).
Proof.
  intros Hm Hp. unfold findHandler.
  rewrite bool_decide_eq_true_2 by exact Hm.
  rewrite Hp, !matchOrRedirect_rooted.
  pose proof (routed_matchPath s) as H.
  destruct (matchPath routes (String Str.slash s)) as [[pat h]|]; exact H.
Qed.

(** A CONNECT request for an authority has no path and matches nothing. *)
Lemma findHandler_connect_empty (r : Request) :
  Method r = "CONNECT" -> Path (url r) = "" -> findHandler routes r = ToNotFound.
Proof.
  intros Hm Hp. unfold findHandler.
  rewrite bool_decide_eq_true_2 by exact Hm.
  rewrite Hp. reflexivity.
Qed.

Lemma findHandler_clean (r : Request) :
  Method r <> "CONNECT" -> cleanPath (Path (url r)) = Path (url r) ->
  findHandler routes r = routeOf (Path (url r)).
Proof.
  intros Hm Hc. unfold findHandler.
  rewrite bool_decide_eq_false_2 by exact Hm.
  rewrite Hc. destruct (cleanPath_rooted (Path (url r))) as [s Hs].
  rewrite Hc in Hs. rewrite Hs, matchOrRedirect_rooted.
  rewrite bool_decide_eq_true_2 by reflexivity. cbn [negb].
  pose proof (routed_matchPath s) as H.
  destruct (matchPath routes (String Str.slash s)) as [[pat h]|]; exact H.
Qed.

Lemma findHandler_unclean (r : Request) :
  Method r <> "CONNECT" -> cleanPath (Path (url r)) <> Path (url r) ->
  findHandler routes r
    = ToRedirect {| Path := cleanPath (Path (url r)); RawQuery := RawQuery (url r) |}.
Proof.
  intros Hm Hc. unfold findHandler.
  rewrite bool_decide_eq_false_2 by exact Hm.
  destruct (cleanPath_rooted (Path (url r))) as [s Hs].
  rewrite Hs, matchOrRedirect_rooted, <- Hs.
  now rewrite bool_decide_eq_false_2 by exact Hc.
Qed.

(** The multiplexer hands a request to registered handlers only. *)
Lemma lookupPattern_registered (mux : ServeMux) (segs : list string) pat h :
  lookupPattern mux segs = Some (pat, h) ->
  keyOf segs = Some pat /\ mux !! pat = Some h.
Proof.
  unfold lookupPattern. destruct (keyOf segs) as [k|]; [|discriminate].
  destruct (mux !! k) eqn:E; [|discriminate]. now intros [= <- <-].
Qed.

Lemma firstRegistered_registered (mux : ServeMux) (cands : list (list string)) pat h :
  firstRegistered mux cands = Some (pat, h) ->
  mux !! pat = Some h /\ exists segs, In segs cands /\ keyOf segs = Some pat.
Proof.
  induction cands as [|c cands IH]; [discriminate|].
  cbn. destruct (lookupPattern mux c) as [[pat' h']|] eqn:E.
  - intros [= -> ->]. apply lookupPattern_registered in E as [Hk Hl]. eauto.
  - intros [Hl (segs & Hin & Hk)]%IH. eauto.
Qed.

Lemma matchPath_registered (mux : ServeMux) (path : string) pat h :
  matchPath mux path = Some (pat, h) -> mux !! pat = Some h.
Proof.
  unfold matchPath. destruct (pathSegments path); [|discriminate].
  now intros [Hl _]%firstRegistered_registered.
Qed.

Lemma matchOrRedirect_match (mux : ServeMux) (path : string) (u : option URL) n :
  matchOrRedirect mux path u = inl n -> n = matchPath mux path.
Proof.
  unfold matchOrRedirect. destruct u as [u|]; [|now intros [= <-]].
  destruct (negb _ && negb _ && _); [|now intros [= <-]].
  destruct (exactMatch _ _); [discriminate | now intros [= <-]].
Qed.

Lemma matchOrRedirect_registered (mux : ServeMux) path u pat h :
  matchOrRedirect mux path u = inl (Some (pat, h)) -> mux !! pat = Some h.
Proof.
  intros H%matchOrRedirect_match. symmetry in H. now apply matchPath_registered in H.
Qed.

Lemma findHandler_registered (mux : ServeMux) (r : Request) pat h :
  findHandler mux r = ToHandler pat h -> mux !! pat = Some h.
Proof.
  unfold findHandler. case_bool_decide.
  - destruct (matchOrRedirect mux _ (Some _)); [|discriminate].
    destruct (matchOrRedirect mux _ None) as [[[pat' h']|]|] eqn:E; try discriminate.
    intros [= <- <-]. now apply matchOrRedirect_registered in E.
  - destruct (matchOrRedirect mux _ (Some _)) as [[[pat' h']|]|] eqn:E; try discriminate.
    + destruct (negb _); [discriminate|].
      intros [= <- <-]. now apply matchOrRedirect_registered in E.
    + destruct (negb _); discriminate.
Qed.

(** ** The handlers on a fresh response *)

Lemma handleRoot_fresh (r : Request) (log : list string) :
  handleRoot r {| w := freshResponse; errorLog := log |}
    = Ret tt {| w := mkResponse true StatusOK [] welcome; errorLog := log |}.
Proof. reflexivity. Qed.

Lemma handleHealth_fresh (r : Request) (log : list string) :
  handleHealth r {| w := freshResponse; errorLog := log |}
    = Ret tt {| w := mkResponse true StatusOK [] ("OK" +:+ Str.nl); errorLog := log |}.
Proof. reflexivity. Qed.

Lemma handleVersion_fresh (r : Request) (log : list string) :
  handleVersion r {| w := freshResponse; errorLog := log |}
    = Ret tt {| w := mkResponse true StatusOK [] ("Version: 1.0.0" +:+ Str.nl);
                errorLog := log |}.
Proof. reflexivity. Qed.

(** Serving with the table of main never touches the error log, and the
    answer does not depend on it. *)
Lemma ServeHTTP_routes (r : Request) (log : list string) :
  ServeHTTP routes r log = Ret (reply r) log.
Proof.
  unfold reply, ServeHTTP. case_bool_decide; [reflexivity|].
  destruct (findHandler routes r) as [pat h| |] eqn:E; try reflexivity.
  apply findHandler_registered in E. rewrite routes_lookup in E.
  repeat case_bool_decide; try discriminate; injection E as <-.
  - now rewrite !handleVersion_fresh.
  - now rewrite !handleHealth_fresh.
  - now rewrite !handleRoot_fresh.
Qed.

(** ** Runs of main *)

(** The process when [main] calls [ListenAndServe]: the three patterns are
    registered and the start line is logged. *)
Lemma main_until_listen (d : string) (env : Env) :
  main_with d env initialProc
    = (err <- ListenAndServe env ":3000" ;;
       match err with Some err => log_Fatal err | None => ret tt end)
        {| DefaultServeMux := routes; stderr := [startLine];
           binds := []; exchanges := [] |}.
Proof. reflexivity. Qed.

Lemma serveAll_routes (rs : list Request) (p : Proc) :
  DefaultServeMux p = routes ->
  serveAll rs p
    = Ret tt {| DefaultServeMux := routes; stderr := stderr p; binds := binds p;
                exchanges := exchanges p ++ map (fun r => (r, reply r)) rs |}.
Proof.
  revert p. induction rs as [|r rs IH]; intros p Hp.
  - cbn. rewrite app_nil_r. destruct p; cbn in *. now subst.
  - cbn [serveAll]. unfold bind at 1. unfold serveRequest.
    rewrite Hp, ServeHTTP_routes. rewrite IH by exact Hp.
    cbn. now rewrite <- app_assoc.
Qed.

Lemma run_bound (d : string) (env : Env) :
  bindError env ":3000" = None ->
  main_with d env initialProc
    = Halt (afterAccept env)
        {| DefaultServeMux := routes;
           stderr := startLine :: match acceptError env with
                                  | Some e => [e]
                                  | None => []
                                  end;
           binds := [":3000"];
           exchanges := map (fun r => (r, reply r)) (incoming env) |}.
Proof.
  intros Hb. rewrite main_until_listen.
  unfold ListenAndServe, bind, modify. cbn [binds stderr exchanges DefaultServeMux].
  rewrite Hb. rewrite serveAll_routes by reflexivity.
  unfold afterAccept. destruct (acceptError env); reflexivity.
Qed.

Lemma run_unbound (d : string) (env : Env) (e : string) :
  bindError env ":3000" = Some e ->
  main_with d env initialProc
    = Halt (Exited 1)
        {| DefaultServeMux := routes; stderr := [startLine; e];
           binds := [":3000"]; exchanges := [] |}.
Proof.
  intros Hb. rewrite main_until_listen.
  unfold ListenAndServe, bind, modify. cbn [binds stderr exchanges DefaultServeMux].
  now rewrite Hb.
Qed.

Lemma served_bound (env : Env) :
  bindError env ":3000" = None ->
  served env = map (fun r => (r, reply r)) (incoming env).
Proof. intros Hb. unfold served, run, main. now rewrite run_bound. Qed.

Lemma served_unbound (env : Env) (e : string) :
  bindError env ":3000" = Some e -> served env = [].
Proof. intros Hb. unfold served, run, main. now rewrite (run_unbound _ _ e). Qed.

(** Whatever a run served, it answered with [reply]. *)
Lemma served_reply (env : Env) (r : Request) (a : Response) :
  In (r, a) (served env) -> a = reply r.
Proof.
  destruct (bindError env ":3000") as [e|] eqn:Hb.
  - now rewrite (served_unbound _ e).
  - rewrite served_bound by exact Hb.
    rewrite in_map_iff. now intros [r' [[= -> <-] _]].
Qed.

Lemma served_incoming (env : Env) (r : Request) :
  bindError env ":3000" = None -> In r (incoming env) ->
  In (r, reply r) (served env).
Proof.
  intros Hb Hr. rewrite served_bound by exact Hb.
  apply in_map_iff. eauto.
Qed.

(** What the clients of a run receive. *)
Lemma received_bound (env : Env) :
  bindError env ":3000" = None ->
  received env = map (fun r => (r, onWire r (reply r))) (incoming env).
Proof.
  intros Hb. unfold received. rewrite (served_bound env Hb), map_map. reflexivity.
Qed.

Lemma received_reply (env : Env) (r : Request) (a : Response) :
  In (r, a) (received env) -> a = onWire r (reply r).
Proof.
  unfold received. rewrite in_map_iff. intros [[r' a'] [[= <- <-] Hin]].
  cbn. now rewrite (served_reply env r' a' Hin).
Qed.

Lemma received_incoming (env : Env) (r : Request) :
  bindError env ":3000" = None -> In r (incoming env) ->
  In (r, onWire r (reply r)) (received env).
Proof.
  intros Hb Hr. rewrite received_bound by exact Hb.
  apply in_map_iff. eauto.
Qed.

Lemma received_served (env : Env) (r : Request) (a : Response) :
  In (r, a) (received env) -> In (r, reply r) (served env).
Proof.
  unfold received. rewrite in_map_iff. intros [[r' a'] [[= <- <-] Hin]].
  cbn. now rewrite <- (served_reply env r' a' Hin).
Qed.

(** Two runs: the port is taken; the port is free and three requests come. *)
Example run_port_taken :
  let r := run (portTaken [request "GET" "/"]) in
  (stopped r, stderr (finalState r), binds (finalState r), exchanges (finalState r))
    = (Some (Exited 1),
       [startLine; "listen tcp :3000: bind: address already in use"],
       [":3000"], []).
Proof. vm_compute. reflexivity. Qed.

Example run_port_free :
  let r := run (portFree [request "GET" "/"; request "HEAD" "/health";
                          request "GET" "/version/"]) in
  (stopped r, stderr (finalState r), map snd (exchanges (finalState r)),
   map snd (received (portFree [request "GET" "/"; request "HEAD" "/health";
                                request "GET" "/version/"])))
    = (Some Blocked, [startLine],
       [ok200 welcome; ok200 ("OK" +:+ Str.nl); ok200 welcome],
       [ok200 welcome; bare200; ok200 welcome]).
Proof. vm_compute. reflexivity. Qed.

(** Every run makes one bind attempt, on [:3000]. *)
Lemma run_binds (env : Env) : binds (finalState (run env)) = [":3000"].
Proof.
  unfold run, main. destruct (bindError env ":3000") as [e|] eqn:Hb.
  - now rewrite (run_unbound _ env e Hb).
  - now rewrite (run_bound _ env Hb).
Qed.

(** ** The answers of the three routes *)

Lemma reply_of_route (r : Request) (pat : string) (h : HandlerFunc) (resp : response) :
  Path (url r) <> "*" ->
  findHandler routes r = ToHandler pat h ->
  h r {| w := freshResponse; errorLog := [] |}
    = Ret tt {| w := resp; errorLog := [] |} ->
  reply r = Written (finishRequest resp).
Proof.
  intros Hs Hf Hh. unfold reply, ServeHTTP.
  now rewrite bool_decide_eq_false_2, Hf, Hh by exact Hs.
Qed.

Lemma rooted_not_asterisk (p s : string) : p = String Str.slash s -> p <> "*".
Proof. now intros ->. Qed.

Lemma findHandler_exact (r : Request) (s : string) :
  Path (url r) = String Str.slash s ->
  cleanPath (String Str.slash s) = String Str.slash s ->
  findHandler routes r = routeOf (String Str.slash s).
Proof.
  intros Hp Hc. destruct (decide (Method r = "CONNECT")) as [Hm|Hm].
  - now apply findHandler_connect_rooted.
  - rewrite <- Hp. apply findHandler_clean; [exact Hm | now rewrite Hp].
Qed.

Lemma reply_root (r : Request) :
  Path (url r) = "/" -> reply r = ok200 welcome.
Proof.
  intros Hp.
  exact (reply_of_route r "/" handleRoot _ (rooted_not_asterisk _ "" Hp)
           (findHandler_exact r "" Hp eq_refl) (handleRoot_fresh r [])).
Qed.

Lemma reply_health (r : Request) :
  Path (url r) = "/health" -> reply r = ok200 ("OK" +:+ Str.nl).
Proof.
  intros Hp.
  exact (reply_of_route r "/health" handleHealth _ (rooted_not_asterisk _ "health" Hp)
           (findHandler_exact r "health" Hp eq_refl) (handleHealth_fresh r [])).
Qed.

Lemma reply_version (r : Request) :
  Path (url r) = "/version" -> reply r = ok200 ("Version: 1.0.0" +:+ Str.nl).
Proof.
  intros Hp.
  exact (reply_of_route r "/version" handleVersion _ (rooted_not_asterisk _ "version" Hp)
           (findHandler_exact r "version" Hp eq_refl) (handleVersion_fresh r [])).
Qed.

Lemma reply_routeOf (r : Request) (p : string) :
  Path (url r) <> "*" ->
  findHandler routes r = routeOf p ->
  reply r = (if bool_decide (decodedPath p = Some "/version")
             then ok200 ("Version: 1.0.0" +:+ Str.nl)
             else if bool_decide (decodedPath p = Some "/health")
             then ok200 ("OK" +:+ Str.nl)
             else ok200 welcome).
Proof.
  unfold routeOf. intros Hs. repeat case_bool_decide; intros Hf.
  - exact (reply_of_route r _ _ _ Hs Hf (handleVersion_fresh r [])).
  - exact (reply_of_route r _ _ _ Hs Hf (handleHealth_fresh r [])).
  - exact (reply_of_route r _ _ _ Hs Hf (handleRoot_fresh r [])).
Qed.

Lemma reply_routeOf_ok (r : Request) (p : string) :
  Path (url r) <> "*" ->
  findHandler routes r = routeOf p -> exists body, reply r = ok200 body.
Proof.
  intros Hs Hf. rewrite (reply_routeOf r p Hs Hf). repeat case_bool_decide; eauto.
Qed.

(** An answer is a handler's, or one of the multiplexer's own. *)
Lemma reply_answers (r : Request) :
  (exists resp, reply r = Written resp)
  \/ (exists u, reply r = Redirected u)
  \/ reply r = NotFoundPage
  \/ reply r = BadRequestPage.
Proof.
  unfold reply, ServeHTTP. case_bool_decide; [now right; right; right|].
  destruct (findHandler routes r) as [pat h| |] eqn:E;
    [|right; left; eauto|right; right; left; eauto].
  left. apply findHandler_registered in E. rewrite routes_lookup in E.
  repeat case_bool_decide; try discriminate; injection E as <-.
  - rewrite handleVersion_fresh. eauto.
  - rewrite handleHealth_fresh. eauto.
  - rewrite handleRoot_fresh. eauto.
Qed.

(** ** What the server sends *)

Lemma hasToken_empty (token : string) : hasToken "" token = false.
Proof. unfold hasToken. now destruct token. Qed.

Lemma expectation_met (r : Request) :
  noUnmetExpectation r -> expectationFails r = false.
Proof.
  unfold noUnmetExpectation, expectationFails. intros [-> | ->]; reflexivity.
Qed.

Lemma onWire_written (r : Request) (resp : response) :
  noUnmetExpectation r -> Path (url r) <> "*" ->
  onWire r (Written resp) = Written (transmit r resp).
Proof.
  intros He Hs. unfold onWire. rewrite (expectation_met r He).
  now rewrite (bool_decide_eq_false_2 (Path (url r) = "*")), andb_false_r by exact Hs.
Qed.

Lemma onWire_other (r : Request) (a : Response) :
  noUnmetExpectation r -> Path (url r) <> "*" ->
  (forall resp, a <> Written resp) -> onWire r a = a.
Proof.
  intros He Hs Ha. unfold onWire. rewrite (expectation_met r He).
  rewrite (bool_decide_eq_false_2 (Path (url r) = "*")), andb_false_r by exact Hs.
  destruct a; try reflexivity. now destruct (Ha resp).
Qed.

Lemma onWire_ok200 (r : Request) (body : string) :
  noUnmetExpectation r -> Path (url r) <> "*" ->
  onWire r (ok200 body)
  = if bool_decide (Method r = "HEAD") then bare200 else ok200 body.
Proof.
  intros He Hs. unfold ok200. rewrite (onWire_written r _ He Hs).
  unfold transmit. now case_bool_decide.
Qed.

(** * The claims *)

(** C1, as the claim states it, fails: a HEAD request to [/] is answered
    with status 200 and no body, and a request to [/] with an expectation
    the server does not meet is answered by the server with its 417. *)
Lemma root_head_counterexample :
  let r := request "HEAD" "/" in
  let x := expecting "GET" "/" in
  received (portFree [r; x])
    = [(r, Written {| wroteHeader := true; status := 200; informational := [];
                      written := "" |});
       (x, ExpectationFailed)]
  /\ ~ (forall env r,
          bindError env ":3000" = None -> In r (incoming env) ->
          Path (url r) = "/" ->
          In (r, ok200 ("Hello! Welcome to the Go Makefile Project!" +:+ Str.nl))
             (received env)).
Proof.
  intros r x.
  assert (Hs : received (portFree [r; x]) = [(r, bare200); (x, ExpectationFailed)])
    by (vm_compute; reflexivity).
  split; [exact Hs|].
  intros H.
  assert (Hin : In (r, ok200 ("Hello! Welcome to the Go Makefile Project!" +:+ Str.nl))
                   (received (portFree [r; x])))
    by (apply H; [reflexivity | left; reflexivity | reflexivity]).
  rewrite Hs in Hin. destruct Hin as [Hin|[Hin|[]]]; discriminate.
Qed.

(** What the server sends for a request that one of the three handlers
    answered. *)
Lemma received_of_reply (env : Env) (r : Request) (body : string) :
  bindError env ":3000" = None -> In r (incoming env) ->
  noUnmetExpectation r -> Path (url r) <> "*" ->
  reply r = ok200 body ->
  In (r, ok200 body) (served env)
  /\ (Method r <> "HEAD" ->
      In (r, ok200 body) (received env)
      /\ forall a, In (r, a) (received env) -> a = ok200 body)
  /\ (Method r = "HEAD" ->
      In (r, bare200) (received env)
      /\ forall a, In (r, a) (received env) -> a = bare200).
Proof.
  intros Hb Hr He Hs Hreply.
  pose proof (served_incoming env r Hb Hr) as Hserved.
  pose proof (received_incoming env r Hb Hr) as Hrec.
  rewrite Hreply in Hserved. rewrite Hreply, (onWire_ok200 r body He Hs) in Hrec.
  split; [exact Hserved|]. split; intros Hm.
  - rewrite bool_decide_eq_false_2 in Hrec by exact Hm. split; [exact Hrec|].
    intros a Ha. rewrite (received_reply env r a Ha), Hreply, (onWire_ok200 r body He Hs).
    now rewrite bool_decide_eq_false_2.
  - rewrite bool_decide_eq_true_2 in Hrec by exact Hm. split; [exact Hrec|].
    intros a Ha. rewrite (received_reply env r a Ha), Hreply, (onWire_ok200 r body He Hs).
    now rewrite bool_decide_eq_true_2.
Qed.

(** C1, amended.  For every request to the path [/] that states no
    expectation other than [100-continue], [handleRoot] runs and writes
    status 200 and the welcome line, whatever the method.  The response the
    server sends has status 200 and that body when the method is not HEAD,
    and status 200 and no body when the method is HEAD. *)
Theorem root_response (env : Env) (r : Request) :
  bindError env ":3000" = None -> In r (incoming env) -> Path (url r) = "/" ->
  noUnmetExpectation r ->
  In (r, ok200 ("Hello! Welcome to the Go Makefile Project!" +:+ Str.nl)) (served env)
  /\ (Method r <> "HEAD" ->
      In (r, ok200 ("Hello! Welcome to the Go Makefile Project!" +:+ Str.nl))
         (received env)
      /\ forall a, In (r, a) (received env) ->
           a = Written {| wroteHeader := true; status := 200; informational := [];
                          written := "Hello! Welcome to the Go Makefile Project!"
                                     +:+ Str.nl |})
  /\ (Method r = "HEAD" ->
      In (r, bare200) (received env)
      /\ forall a, In (r, a) (received env) ->
           a = Written {| wroteHeader := true; status := 200; informational := [];
                          written := "" |}).
Proof.
  intros Hb Hr Hp He.
  exact (received_of_reply env r welcome Hb Hr He (rooted_not_asterisk _ "" Hp)
           (reply_root r Hp)).
Qed.

Lemma root_response_witness :
  let r := request "DELETE" "/" in
  let env := portFree [request "GET" "/version"; r] in
  (bindError env ":3000" = None /\ In r (incoming env) /\ Path (url r) = "/"
   /\ noUnmetExpectation r /\ Method r <> "HEAD")
  /\ In (r, ok200 ("Hello! Welcome to the Go Makefile Project!" +:+ Str.nl))
        (received env).
Proof.
  intros r env.
  assert (Hr : In r (incoming env)) by (right; left; reflexivity).
  assert (He : noUnmetExpectation r) by (left; reflexivity).
  assert (Hm : Method r <> "HEAD") by discriminate.
  split; [repeat split; assumption|].
  exact (proj1 (proj1 (proj2 (root_response env r eq_refl Hr eq_refl He)) Hm)).
Defined.

(** C2, as the claim states it, fails: a HEAD request to [/health] is
    answered with status 200 and no body, and a request to [/health] with
    an expectation the server does not meet is answered by the server with
    its 417. *)
Lemma health_head_counterexample :
  let r := request "HEAD" "/health" in
  let x := expecting "GET" "/health" in
  received (portFree [r; x])
    = [(r, Written {| wroteHeader := true; status := 200; informational := [];
                      written := "" |});
       (x, ExpectationFailed)]
  /\ ~ (forall env r,
          bindError env ":3000" = None -> In r (incoming env) ->
          Path (url r) = "/health" ->
          In (r, ok200 ("OK" +:+ Str.nl)) (received env)).
Proof.
  intros r x.
  assert (Hs : received (portFree [r; x]) = [(r, bare200); (x, ExpectationFailed)])
    by (vm_compute; reflexivity).
  split; [exact Hs|].
  intros H.
  assert (Hin : In (r, ok200 ("OK" +:+ Str.nl)) (received (portFree [r; x])))
    by (apply H; [reflexivity | left; reflexivity | reflexivity]).
  rewrite Hs in Hin. destruct Hin as [Hin|[Hin|[]]]; discriminate.
Qed.

(** C2, amended.  For every request to the path [/health] that states no
    expectation other than [100-continue], [handleHealth] runs and writes
    status 200 and [OK] with a line feed, whatever the method.  The
    response the server sends has status 200 and that body when the method
    is not HEAD, and status 200 and no body when the method is HEAD. *)
Theorem health_response (env : Env) (r : Request) :
  bindError env ":3000" = None -> In r (incoming env) -> Path (url r) = "/health" ->
  noUnmetExpectation r ->
  In (r, ok200 ("OK" +:+ Str.nl)) (served env)
  /\ (Method r <> "HEAD" ->
      In (r, ok200 ("OK" +:+ Str.nl)) (received env)
      /\ forall a, In (r, a) (received env) ->
           a = Written {| wroteHeader := true; status := 200; informational := [];
                          written := "OK" +:+ Str.nl |})
  /\ (Method r = "HEAD" ->
      In (r, bare200) (received env)
      /\ forall a, In (r, a) (received env) ->
           a = Written {| wroteHeader := true; status := 200; informational := [];
                          written := "" |}).
Proof.
  intros Hb Hr Hp He.
  exact (received_of_reply env r _ Hb Hr He (rooted_not_asterisk _ "health" Hp)
           (reply_health r Hp)).
Qed.

Lemma health_response_witness :
  let r := request "PUT" "/health" in
  let r' := request "HEAD" "/health" in
  let env := portFree [r; r'] in
  (bindError env ":3000" = None /\ In r (incoming env) /\ In r' (incoming env)
   /\ noUnmetExpectation r /\ noUnmetExpectation r')
  /\ In (r, ok200 ("OK" +:+ Str.nl)) (received env)
  /\ In (r', bare200) (received env).
Proof.
  intros r r' env.
  assert (Hr : In r (incoming env)) by (left; reflexivity).
  assert (Hr' : In r' (incoming env)) by (right; left; reflexivity).
  assert (He : noUnmetExpectation r) by (left; reflexivity).
  assert (He' : noUnmetExpectation r') by (left; reflexivity).
  split; [repeat split; assumption|]. split.
  - apply (proj1 (proj2 (health_response env r eq_refl Hr eq_refl He))). discriminate.
  - apply (proj2 (proj2 (health_response env r' eq_refl Hr' eq_refl He'))). reflexivity.
Defined.

(** C3, as the claim states it, fails: a HEAD request to [/version] is
    answered with status 200 and no body, and a request to [/version] with
    an expectation the server does not meet is answered by the server with
    its 417. *)
Lemma version_head_counterexample :
  let r := request "HEAD" "/version" in
  let x := expecting "GET" "/version" in
  received (portFree [r; x])
    = [(r, Written {| wroteHeader := true; status := 200; informational := [];
                      written := "" |});
       (x, ExpectationFailed)]
  /\ ~ (forall env r,
          bindError env ":3000" = None -> In r (incoming env) ->
          Path (url r) = "/version" ->
          In (r, ok200 ("Version: 1.0.0" +:+ Str.nl)) (received env)).
Proof.
  intros r x.
  assert (Hs : received (portFree [r; x]) = [(r, bare200); (x, ExpectationFailed)])
    by (vm_compute; reflexivity).
  split; [exact Hs|].
  intros H.
  assert (Hin : In (r, ok200 ("Version: 1.0.0" +:+ Str.nl)) (received (portFree [r; x])))
    by (apply H; [reflexivity | left; reflexivity | reflexivity]).
  rewrite Hs in Hin. destruct Hin as [Hin|[Hin|[]]]; discriminate.
Qed.

(** C3, amended.  For every request to the path [/version] that states no
    expectation other than [100-continue], [handleVersion] runs and writes
    status 200 and [Version: 1.0.0] with a line feed, which is
    [Version: ], the constant [version] and a line feed, the constant
    being [1.0.0], whatever the method.  The response the server sends has
    status 200 and that body when the method is not HEAD, and status 200
    and no body when the method is HEAD. *)
Theorem version_response (env : Env) (r : Request) :
  bindError env ":3000" = None -> In r (incoming env) -> Path (url r) = "/version" ->
  noUnmetExpectation r ->
  (In (r, ok200 ("Version: 1.0.0" +:+ Str.nl)) (served env)
   /\ (Method r <> "HEAD" ->
       In (r, ok200 ("Version: 1.0.0" +:+ Str.nl)) (received env)
       /\ forall a, In (r, a) (received env) ->
            a = Written {| wroteHeader := true; status := 200; informational := [];
                           written := "Version: 1.0.0" +:+ Str.nl |})
   /\ (Method r = "HEAD" ->
       In (r, bare200) (received env)
       /\ forall a, In (r, a) (received env) ->
            a = Written {| wroteHeader := true; status := 200; informational := [];
                           written := "" |}))
  /\ "Version: 1.0.0" +:+ Str.nl = "Version: " +:+ version +:+ Str.nl
  /\ version = "1.0.0".
Proof.
  intros Hb Hr Hp He. split; [|split; reflexivity].
  exact (received_of_reply env r _ Hb Hr He (rooted_not_asterisk _ "version" Hp)
           (reply_version r Hp)).
Qed.

Lemma version_response_witness :
  let r := request "POST" "/version" in
  let env := portFree [r] in
  (bindError env ":3000" = None /\ In r (incoming env) /\ Path (url r) = "/version"
   /\ noUnmetExpectation r /\ Method r <> "HEAD")
  /\ In (r, ok200 ("Version: 1.0.0" +:+ Str.nl)) (received env).
Proof.
  intros r env.
  assert (Hr : In r (incoming env)) by (left; reflexivity).
  assert (He : noUnmetExpectation r) by (left; reflexivity).
  assert (Hm : Method r <> "HEAD") by discriminate.
  split; [repeat split; assumption|].
  exact (proj1 (proj1 (proj2 (proj1 (version_response env r eq_refl Hr eq_refl He))) Hm)).
Defined.

(** C4, as the claim states it, fails: in one run a GET request, a HEAD
    request and a GET request with an expectation the server does not meet,
    all three to [/health], get three different responses. *)
Lemma method_counterexample :
  let r1 := request "GET" "/health" in
  let r2 := request "HEAD" "/health" in
  let r3 := expecting "GET" "/health" in
  received (portFree [r1; r2; r3])
    = [(r1, ok200 ("OK" +:+ Str.nl)); (r2, ok200 ""); (r3, ExpectationFailed)]
  /\ ~ (forall env r1 r2 a1 a2,
          In (r1, a1) (received env) -> In (r2, a2) (received env) ->
          Path (url r1) = Path (url r2) -> registeredPath (Path (url r1)) ->
          a1 = a2).
Proof.
  intros r1 r2 r3.
  assert (Hs : received (portFree [r1; r2; r3])
               = [(r1, ok200 ("OK" +:+ Str.nl)); (r2, ok200 ""); (r3, ExpectationFailed)])
    by (vm_compute; reflexivity).
  split; [exact Hs|].
  intros H.
  assert (Heq : ok200 ("OK" +:+ Str.nl) = ok200 "").
  { apply (H (portFree [r1; r2; r3]) r1 r2); rewrite ?Hs.
    - left; reflexivity.
    - right; left; reflexivity.
    - reflexivity.
    - right; left; reflexivity. }
  discriminate Heq.
Qed.

(** C4, amended.  Every handler is deterministic and independent of the
    request: what it does to a response is the same for every request.
    Two requests to the same registered path that state no expectation
    other than [100-continue], in the same run or in two runs, whatever
    their queries, headers and bodies, get the same response, with status
    200, when both are HEAD requests or neither is; a HEAD request gets the
    response without its body.  Serving requests changes nothing in the
    default multiplexer, and no handler writes to the log. *)
Theorem responses_request_independent :
  (forall (h : HandlerFunc) r1 r2 c,
      h = handleRoot \/ h = handleHealth \/ h = handleVersion -> h r1 c = h r2 c)
  /\ (forall env1 env2 r1 r2 a1 a2,
        In (r1, a1) (received env1) -> In (r2, a2) (received env2) ->
        Path (url r1) = Path (url r2) -> registeredPath (Path (url r1)) ->
        noUnmetExpectation r1 -> noUnmetExpectation r2 ->
        (Method r1 = "HEAD" <-> Method r2 = "HEAD") ->
        a1 = a2 /\ statusCode a1 = Some 200)
  /\ (forall env rs,
        let quiet := {| bindError := bindError env; incoming := [];
                        acceptError := acceptError env |} in
        let busy := {| bindError := bindError env; incoming := rs;
                       acceptError := acceptError env |} in
        DefaultServeMux (finalState (run busy)) = DefaultServeMux (finalState (run quiet)))
  /\ (forall (h : HandlerFunc) r log,
        h = handleRoot \/ h = handleHealth \/ h = handleVersion ->
        errorLog (finalState (h r {| w := freshResponse; errorLog := log |})) = log).
Proof.
  split; [|split; [|split]].
  - intros h r1 r2 c [-> | [-> | ->]]; reflexivity.
  - intros env1 env2 r1 r2 a1 a2 H1 H2 Hsame Hreg He1 He2 Hhead.
    rewrite (received_reply _ _ _ H1), (received_reply _ _ _ H2).
    assert (Hbody : exists body, reply r1 = ok200 body /\ reply r2 = ok200 body).
    { destruct Hreg as [Hp|[Hp|Hp]]; pose proof Hp as Hp2; rewrite Hsame in Hp2.
      - rewrite (reply_root r1 Hp), (reply_root r2 Hp2). eauto.
      - rewrite (reply_health r1 Hp), (reply_health r2 Hp2). eauto.
      - rewrite (reply_version r1 Hp), (reply_version r2 Hp2). eauto. }
    destruct Hbody as (body & -> & ->).
    assert (Hs1 : Path (url r1) <> "*")
      by (destruct Hreg as [Hp|[Hp|Hp]]; rewrite Hp; discriminate).
    assert (Hs2 : Path (url r2) <> "*") by now rewrite <- Hsame.
    rewrite (onWire_ok200 r1 body He1 Hs1), (onWire_ok200 r2 body He2 Hs2).
    destruct (decide (Method r1 = "HEAD")) as [Hm|Hm].
    + rewrite !bool_decide_eq_true_2 by tauto. now split.
    + rewrite !bool_decide_eq_false_2 by tauto. now split.
  - intros env rs quiet busy. unfold run, main.
    destruct (bindError env ":3000") as [e|] eqn:Hb.
    + now rewrite (run_unbound _ busy e Hb), (run_unbound _ quiet e Hb).
    + now rewrite (run_bound _ busy Hb), (run_bound _ quiet Hb).
  - intros h r log [-> | [-> | ->]]; reflexivity.
Qed.

Lemma responses_request_independent_witness :
  let r1 := {| Method := "GET"; url := {| Path := "/health"; RawQuery := "" |};
               Host := "localhost:3000"; Header := []; Body := "" |} in
  let r2 := {| Method := "POST"; url := {| Path := "/health"; RawQuery := "verbose=1" |};
               Host := "example.org";
               Header := [("Accept", "text/plain"); ("Expect", "100-continue")];
               Body := "ping" |} in
  let a := ok200 ("OK" +:+ Str.nl) in
  (In (r1, a) (received (portFree [r1; r2])) /\ In (r2, a) (received (portFree [r2])))
  /\ a = a /\ statusCode a = Some 200.
Proof.
  intros r1 r2 a.
  assert (H1 : In (r1, a) (received (portFree [r1; r2]))) by (vm_compute; left; reflexivity).
  assert (H2 : In (r2, a) (received (portFree [r2]))) by (vm_compute; left; reflexivity).
  split; [split; assumption|].
  apply (proj1 (proj2 responses_request_independent)
           (portFree [r1; r2]) (portFree [r2]) r1 r2 a a H1 H2);
    [reflexivity | right; left; reflexivity | left; reflexivity
    | right; reflexivity | split; discriminate].
Defined.

(** C5. When binding the listener fails, the process logs the error and
    exits with status 1 after that one attempt, and serves nothing.  It is
    the only way the start can fail: when the bind succeeds, every request
    that arrives is served, nothing panics, and the process stays in the
    accept loop for as long as accepting does not fail. *)
Theorem bind_failure_is_fatal (env : Env) :
  (forall e, bindError env ":3000" = Some e ->
     stopped (run env) = Some (Exited 1)
     /\ stderr (finalState (run env)) = ["Starting server on port 3000..."; e]
     /\ binds (finalState (run env)) = [":3000"]
     /\ served env = [])
  /\ (bindError env ":3000" = None ->
        map fst (served env) = incoming env
        /\ (forall msg, stopped (run env) <> Some (Panicked msg))
        /\ (acceptError env = None -> stopped (run env) = Some Blocked)).
Proof.
  split.
  - intros e Hb. unfold served, run, main. now rewrite (run_unbound _ env e Hb).
  - intros Hb. rewrite (served_bound env Hb). unfold run, main.
    rewrite (run_bound _ env Hb). split; [|split].
    + rewrite map_map. apply map_id.
    + unfold afterAccept. now destruct (acceptError env).
    + unfold afterAccept. now intros ->.
Qed.

Lemma bind_failure_is_fatal_witness :
  let env := portTaken [request "GET" "/"] in
  let e := "listen tcp :3000: bind: address already in use" in
  bindError env ":3000" = Some e
  /\ stopped (run env) = Some (Exited 1)
  /\ stderr (finalState (run env)) = ["Starting server on port 3000..."; e]
  /\ binds (finalState (run env)) = [":3000"]
  /\ served env = [].
Proof.
  split; [reflexivity|].
  apply (proj1 (bind_failure_is_fatal (portTaken [request "GET" "/"]))
           "listen tcp :3000: bind: address already in use").
  reflexivity.
Defined.

(** C6. The branch that replaces an empty port by [defaultPort] is never
    taken: the port is the literal [3000], so every run binds [:3000], and
    the run is the same whatever the value of [defaultPort], which is to
    say that the constant is not read. *)
Theorem default_port_never_used :
  (forall (d : string) (env : Env) (p : Proc), main_with d env p = main env p)
  /\ (forall env, binds (finalState (run env)) = [":" +:+ "3000"])
  /\ (forall env, head (stderr (finalState (run env)))
                    = Some (Sprintf "Starting server on port %s..." ["3000"])).
Proof.
  split; [reflexivity|].
  assert (H : forall env, exists how err,
             run env = Halt how {| DefaultServeMux := routes; stderr := startLine :: err;
                                   binds := [":3000"];
                                   exchanges := served env |}).
  { intros env. unfold served, run, main.
    destruct (bindError env ":3000") as [e|] eqn:Hb.
    - rewrite (run_unbound _ env e Hb). eauto.
    - rewrite (run_bound _ env Hb). eauto. }
  split; intros env; destruct (H env) as (how & err & ->); reflexivity.
Qed.

Lemma default_port_never_used_witness :
  main_with "9090" (portTaken []) initialProc = main (portTaken []) initialProc
  /\ binds (finalState (run (portFree []))) = [":3000"].
Proof.
  split.
  - apply (proj1 default_port_never_used).
  - apply (proj1 (proj2 default_port_never_used)).
Defined.



(** C8. The configuration holds for the life of the process: the version
    string is not empty, the port is the decimal writing of an integer from
    1 to 65535 (the port [main] binds, and [defaultPort] too), and neither
    changes: every run binds that one port once, and every answer about the
    version, however many requests came before, reports [version]. *)
Theorem configuration_invariant :
  version <> ""
  /\ validPort defaultPort
  /\ (forall env,
        exists port, binds (finalState (run env)) = [":" +:+ port]
                     /\ Str.atoi port = Some 3000 /\ validPort port)
  /\ (forall env r a,
        In (r, a) (served env) -> Path (url r) = "/version" ->
        a = ok200 ("Version: " +:+ version +:+ Str.nl)).
Proof.
  split; [discriminate|]. split; [exists 8080; split; [reflexivity | lia]|]. split.
  - intros env. exists "3000".
    split; [apply run_binds|].
    split; [reflexivity | exists 3000; split; [reflexivity | lia]].
  - intros env r a Ha Hp. rewrite (served_reply env r a Ha). now apply reply_version.
Qed.

Lemma configuration_invariant_witness :
  let r := request "GET" "/version" in
  let env := portFree [request "GET" "/"; request "POST" "/health"; r] in
  (In (r, ok200 ("Version: 1.0.0" +:+ Str.nl)) (served env) /\ Path (url r) = "/version")
  /\ ok200 ("Version: 1.0.0" +:+ Str.nl) = ok200 ("Version: " +:+ version +:+ Str.nl).
Proof.
  intros r env.
  assert (H : In (r, ok200 ("Version: 1.0.0" +:+ Str.nl)) (served env))
    by (vm_compute; right; right; left; reflexivity).
  split; [split; [exact H | reflexivity]|].
  apply (proj2 (proj2 (proj2 configuration_invariant)) env r _ H). reflexivity.
Defined.

(** C9. The three handlers cannot fail: on every request and every state of
    the response they are given, each of [handleRoot], [handleHealth] and
    [handleVersion] returns, without a panic; and in every run no request
    ends in a recovered panic or without an answer. *)
Theorem handlers_infallible :
  (forall (r : Request) (c : Conn),
      (exists c', handleRoot r c = Ret tt c')
      /\ (exists c', handleHealth r c = Ret tt c')
      /\ (exists c', handleVersion r c = Ret tt c'))
  /\ (forall env r a, In (r, a) (served env) ->
        (forall msg, a <> Aborted msg) /\ a <> Unfinished).
Proof.
  split.
  - intros r [[wh st inf wr] log].
    unfold handleRoot, handleHealth, handleVersion, Fprintf, Write, WriteHeader,
      bind, get, modify, ret, halt.
    destruct wh; cbn; repeat split;
      destruct (bodyAllowedForStatus st); cbn; eauto.
  - intros env r a Ha. rewrite (served_reply env r a Ha).
    destruct (reply_answers r) as [[resp ->]|[[u ->]|[-> | ->]]];
      split; try intros msg; discriminate.
Qed.

Lemma handlers_infallible_witness :
  let r := request "GET" "/health" in
  let a := ok200 ("OK" +:+ Str.nl) in
  In (r, a) (served (portFree [r])) /\ (forall msg, a <> Aborted msg) /\ a <> Unfinished.
Proof.
  intros r a.
  assert (H : In (r, a) (served (portFree [r]))) by (left; reflexivity).
  split; [exact H|].
  exact (proj2 handlers_infallible (portFree [r]) r a H).
Defined.

(** C10, as the claim states it, fails.  None of the paths [//foo],
    [/%68ealth], [*] and the empty path is [/health] or [/version]; yet a
    GET request for [//foo] is answered by the multiplexer with a redirect,
    one for [/%68ealth] by [handleHealth], OPTIONS for the asterisk by the
    server itself with an empty 200, and a CONNECT request for an
    authority, which has the empty path, with the 404 page. *)
Lemma catch_all_counterexample :
  let r := request "GET" "//foo" in
  let e := request "GET" "/%68ealth" in
  let o := request "OPTIONS" "*" in
  let c := request "CONNECT" "" in
  received (portFree [r; e; o; c])
    = [(r, Redirected {| Path := "/foo"; RawQuery := "" |});
       (e, ok200 ("OK" +:+ Str.nl)); (o, ok200 ""); (c, NotFoundPage)]
  /\ ~ (forall env r,
          bindError env ":3000" = None -> In r (incoming env) ->
          Path (url r) <> "/health" -> Path (url r) <> "/version" ->
          In (r, ok200 ("Hello! Welcome to the Go Makefile Project!" +:+ Str.nl))
             (received env))
  /\ ~ (forall env r a, In (r, a) (received env) -> a <> NotFoundPage).
Proof.
  intros r e o c.
  assert (Hs : received (portFree [r; e; o; c])
               = [(r, Redirected {| Path := "/foo"; RawQuery := "" |});
                  (e, ok200 ("OK" +:+ Str.nl)); (o, ok200 ""); (c, NotFoundPage)])
    by (vm_compute; reflexivity).
  split; [exact Hs|]. split.
  - intros H.
    assert (Hin : In (r, ok200 ("Hello! Welcome to the Go Makefile Project!" +:+ Str.nl))
                     (received (portFree [r; e; o; c])))
      by (apply H; [reflexivity | left; reflexivity | discriminate | discriminate]).
    rewrite Hs in Hin. destruct Hin as [Hin|[Hin|[Hin|[Hin|[]]]]]; discriminate.
  - intros H. apply (H (portFree [r; e; o; c]) c NotFoundPage); [|reflexivity].
    rewrite Hs. right; right; right; left; reflexivity.
Qed.

(** The only way to a 404 on the wire is a 404 of the multiplexer. *)
Lemma onWire_not_found (r : Request) (a : Response) :
  onWire r a = NotFoundPage -> a = NotFoundPage.
Proof.
  unfold onWire. destruct (expectationFails r); [discriminate|].
  destruct (_ && _); [discriminate|].
  destruct a; now try discriminate.
Qed.

(** C10, amended.  Take a request that states no expectation other than
    [100-continue].  If its path is in canonical form (the multiplexer's
    [cleanPath] leaves it as it is) and, with its segments unescaped, is
    neither [/health] nor [/version], the catch-all pattern [/] routes it
    to [handleRoot], which writes status 200 and the welcome line; the
    server sends them, without the body when the method is HEAD.  If its
    method is not CONNECT and its path begins with a slash and is not in
    canonical form, the multiplexer answers with a redirect.  Whatever a
    request expects, if its path begins with a slash, the answer is not the
    404 page. *)
Theorem catch_all_canonical (env : Env) (r : Request) :
  (bindError env ":3000" = None -> In r (incoming env) -> noUnmetExpectation r ->
   (cleanPath (Path (url r)) = Path (url r) ->
    decodedPath (Path (url r)) <> Some "/health" ->
    decodedPath (Path (url r)) <> Some "/version" ->
    findHandler (DefaultServeMux (finalState (run env))) r = ToHandler "/" handleRoot
    /\ In (r, ok200 ("Hello! Welcome to the Go Makefile Project!" +:+ Str.nl)) (served env)
    /\ (Method r <> "HEAD" ->
        In (r, ok200 ("Hello! Welcome to the Go Makefile Project!" +:+ Str.nl))
           (received env)
        /\ forall a, In (r, a) (received env) ->
             a = ok200 ("Hello! Welcome to the Go Makefile Project!" +:+ Str.nl))
    /\ (Method r = "HEAD" ->
        In (r, bare200) (received env)
        /\ forall a, In (r, a) (received env) -> a = bare200))
   /\ (Method r <> "CONNECT" -> Str.hasPrefix (Path (url r)) "/" = true ->
       cleanPath (Path (url r)) <> Path (url r) ->
       (exists u, In (r, Redirected u) (received env))
       /\ forall a, In (r, a) (received env) -> exists u, a = Redirected u))
  /\ (Str.hasPrefix (Path (url r)) "/" = true ->
      forall a, In (r, a) (received env) -> a <> NotFoundPage).
Proof.
  split; [intros Hb Hr He; split|].
  - assert (Hmux : DefaultServeMux (finalState (run env)) = routes)
      by (unfold run, main; now rewrite (run_bound _ env Hb)).
    intros Hc Hh Hv. rewrite Hmux.
    destruct (cleanPath_rooted (Path (url r))) as [s Hs]. rewrite Hc in Hs.
    assert (Hf : findHandler routes r = ToHandler "/" handleRoot).
    { rewrite (findHandler_exact r s Hs) by now rewrite <- Hs.
      unfold routeOf. rewrite <- Hs.
      now rewrite !bool_decide_eq_false_2 by assumption. }
    assert (Hreply : reply r = ok200 welcome)
      by exact (reply_of_route r _ _ _ (rooted_not_asterisk _ s Hs) Hf
                  (handleRoot_fresh r [])).
    split; [exact Hf|].
    exact (received_of_reply env r welcome Hb Hr He (rooted_not_asterisk _ s Hs) Hreply).
  - intros Hm Hp Hc.
    apply hasPrefix_slash in Hp as [s Hs].
    pose proof (rooted_not_asterisk _ s Hs) as Hstar.
    assert (Hreply : reply r = Redirected {| Path := cleanPath (Path (url r));
                                             RawQuery := RawQuery (url r) |}).
    { unfold reply, ServeHTTP.
      now rewrite bool_decide_eq_false_2, (findHandler_unclean r Hm Hc) by exact Hstar. }
    assert (Hwire : onWire r (reply r) = reply r)
      by (apply (onWire_other r _ He Hstar); rewrite Hreply; discriminate).
    split.
    + eexists. pose proof (received_incoming env r Hb Hr) as Hin.
      rewrite Hwire, Hreply in Hin. exact Hin.
    + intros a Ha. rewrite (received_reply env r a Ha), Hwire, Hreply. eauto.
  - intros Hp a Ha Hnf. rewrite (received_reply env r a Ha) in Hnf.
    apply onWire_not_found in Hnf.
    apply hasPrefix_slash in Hp as [s Hs].
    pose proof (rooted_not_asterisk _ s Hs) as Hstar.
    assert (Hcases : (exists body, reply r = ok200 body)
                     \/ exists u, reply r = Redirected u).
    { destruct (decide (Method r = "CONNECT")) as [Hm|Hm].
      - left. apply (reply_routeOf_ok r _ Hstar (findHandler_connect_rooted r s Hm Hs)).
      - destruct (decide (cleanPath (Path (url r)) = Path (url r))) as [Hc|Hc].
        + left. apply (reply_routeOf_ok r _ Hstar (findHandler_clean r Hm Hc)).
        + right. unfold reply, ServeHTTP.
          rewrite bool_decide_eq_false_2, (findHandler_unclean r Hm Hc) by exact Hstar.
          eauto. }
    destruct Hcases as [[body Hq]|[u Hq]]; rewrite Hq in Hnf; discriminate Hnf.
Qed.

Lemma catch_all_canonical_witness :
  let r := request "GET" "/health/" in
  let r' := request "GET" "/a/../health" in
  let x := expecting "GET" "/foo" in
  (noUnmetExpectation r /\ cleanPath (Path (url r)) = Path (url r)
   /\ decodedPath (Path (url r)) <> Some "/health" /\ Method r <> "HEAD")
  /\ In (r, ok200 ("Hello! Welcome to the Go Makefile Project!" +:+ Str.nl))
        (received (portFree [r]))
  /\ (exists u, In (r', Redirected u) (received (portFree [r'])))
  /\ forall a, In (x, a) (received (portFree [x])) -> a <> NotFoundPage.
Proof.
  intros r r' x.
  assert (He : noUnmetExpectation r) by (left; reflexivity).
  assert (He' : noUnmetExpectation r') by (left; reflexivity).
  assert (Hc : cleanPath (Path (url r)) = Path (url r)) by (vm_compute; reflexivity).
  assert (Hd : decodedPath (Path (url r)) <> Some "/health") by (vm_compute; discriminate).
  assert (Hd' : decodedPath (Path (url r)) <> Some "/version") by (vm_compute; discriminate).
  assert (Hm : Method r <> "HEAD") by discriminate.
  split; [repeat split; assumption|]. split; [|split].
  - pose proof (proj1 (proj1 (catch_all_canonical (portFree [r]) r) eq_refl
                         (or_introl eq_refl) He) Hc Hd Hd') as (_ & _ & H & _).
    exact (proj1 (H Hm)).
  - apply (proj2 (proj1 (catch_all_canonical (portFree [r']) r') eq_refl
                    (or_introl eq_refl) He'));
      [discriminate | reflexivity | vm_compute; discriminate].
  - exact (proj2 (catch_all_canonical (portFree [x]) x) eq_refl).
Defined.

(** * Further properties of main.go *)

(** ** How a run ends *)

(** X1. When the bind succeeds and accepting fails later with an error,
    [ListenAndServe] returns that error and [main] treats it like a bind
    error: the error is logged, after the start line, and the process exits
    with status 1, having made the one bind attempt. *)
Theorem accept_failure_is_fatal (env : Env) (e : string) :
  bindError env ":3000" = None -> acceptError env = Some e ->
  stopped (run env) = Some (Exited 1)
  /\ head (stderr (finalState (run env))) = Some "Starting server on port 3000..."
  /\ In e (stderr (finalState (run env)))
  /\ binds (finalState (run env)) = [":3000"].
Proof.
  intros Hb Ha. unfold run, main. rewrite (run_bound _ env Hb).
  unfold afterAccept. rewrite Ha. cbn.
  repeat split. right; left; reflexivity.
Qed.

Lemma accept_failure_is_fatal_witness :
  let env := listenerCloses [request "GET" "/"; request "GET" "/health"] in
  let e := "accept tcp [::]:3000: use of closed network connection" in
  (bindError env ":3000" = None /\ acceptError env = Some e)
  /\ stopped (run env) = Some (Exited 1)
  /\ In e (stderr (finalState (run env))).
Proof.
  intros env e.
  pose proof (accept_failure_is_fatal env e eq_refl eq_refl) as (H1 & _ & H3 & _).
  split; [split; reflexivity|]. split; [exact H1 | exact H3].
Defined.

(** X2. A run of [main] from process start ends in one of two ways: it
    stays in the accept loop, or it exits with status 1.  [main] never
    returns, never exits with status 0 and never panics.  It stays in the
    accept loop exactly when the bind succeeds and accepting never fails. *)
Theorem run_blocks_or_exits_1 (env : Env) :
  (stopped (run env) = Some Blocked \/ stopped (run env) = Some (Exited 1))
  /\ (stopped (run env) = Some Blocked
      <-> bindError env ":3000" = None /\ acceptError env = None).
Proof.
  unfold run, main. destruct (bindError env ":3000") as [e|] eqn:Hb.
  - rewrite (run_unbound _ env e Hb). cbn. split; [now right|].
    split; [discriminate | now intros [? _]].
  - rewrite (run_bound _ env Hb). unfold afterAccept.
    destruct (acceptError env) as [e|]; cbn.
    + split; [now right|]. split; [discriminate | now intros [_ ?]].
    + split; [now left|]. now split.
Qed.

Lemma run_blocks_or_exits_1_witness :
  stopped (run (portFree [request "GET" "/"])) = Some Blocked
  /\ stopped (run (listenerCloses [])) <> Some Blocked.
Proof.
  split.
  - apply (proj2 (proj2 (run_blocks_or_exits_1 (portFree [request "GET" "/"])))).
    split; reflexivity.
  - intros H.
    apply (proj1 (proj2 (run_blocks_or_exits_1 (listenerCloses [])))) in H.
    destruct H as [_ H]. discriminate H.
Defined.

(** ** main in a process where more is registered *)

(** A request for a registered plain pattern, path and pattern being the
    same, reaches the handler of that pattern, whatever else is
    registered. *)
Lemma matchOrRedirect_exact (mux : ServeMux) (pat : string) (h : HandlerFunc)
    (u : option URL) :
  decodedPath pat = Some pat -> mux !! pat = Some h ->
  matchOrRedirect mux pat u = inl (Some (pat, h)).
Proof.
  intros Hd Hl.
  assert (Hm : matchPath mux pat = Some (pat, h)).
  { unfold matchPath. unfold decodedPath in Hd.
    destruct (pathSegments pat) as [segs|]; [|discriminate].
    unfold matching. cbn [firstRegistered]. unfold lookupPattern.
    now rewrite Hd, Hl. }
  unfold matchOrRedirect. rewrite Hm.
  destruct u as [u|]; [|reflexivity].
  assert (He : exactMatch (Some (pat, h)) pat = true).
  { unfold exactMatch. destruct (Str.endsWithSlash pat); [|reflexivity].
    cbn [negb]. now rewrite orb_true_r, Nat.eqb_refl. }
  now rewrite He.
Qed.

Lemma findHandler_exact_registered (mux : ServeMux) (r : Request) (h : HandlerFunc) :
  decodedPath (Path (url r)) = Some (Path (url r)) ->
  mux !! Path (url r) = Some h ->
  Method r = "CONNECT" \/ cleanPath (Path (url r)) = Path (url r) ->
  findHandler mux r = ToHandler (Path (url r)) h.
Proof.
  intros Hd Hl Hc. unfold findHandler. case_bool_decide as Hm.
  - now rewrite !(matchOrRedirect_exact mux _ h _ Hd Hl).
  - destruct Hc as [Hc|Hc]; [contradiction|].
    rewrite Hc, (matchOrRedirect_exact mux _ h _ Hd Hl).
    now rewrite bool_decide_eq_true_2.
Qed.

(** The table after [main]'s three registrations on top of [m]. *)
Lemma lookup_after_registrations (m : ServeMux) (path : string) :
  registeredPath path ->
  <["/version" := handleVersion]>
    (<["/health" := handleHealth]> (<["/" := handleRoot]> m)) !! path
  = routes !! path.
Proof.
  intros Hp. rewrite routes_lookup, !lookup_insert.
  destruct Hp as [-> | [-> | ->]]; reflexivity.
Qed.

Lemma registeredPath_clean (path : string) :
  registeredPath path -> cleanPath path = path /\ decodedPath path = Some path.
Proof. intros [-> | [-> | ->]]; split; reflexivity. Qed.

Lemma ServeHTTP_registered (m : ServeMux) (r : Request) (log : list string) :
  registeredPath (Path (url r)) ->
  ServeHTTP (<["/version" := handleVersion]>
               (<["/health" := handleHealth]> (<["/" := handleRoot]> m))) r log
  = Ret (reply r) log.
Proof.
  intros Hp. rewrite <- (ServeHTTP_routes r log). unfold ServeHTTP.
  pose proof (lookup_after_registrations m _ Hp) as Hl.
  destruct (registeredPath_clean _ Hp) as [Hc Hd].
  assert (Hh : exists h, routes !! Path (url r) = Some h).
  { rewrite routes_lookup. destruct Hp as [-> | [-> | ->]]; cbn; eauto. }
  destruct Hh as [h Hh]. rewrite Hh in Hl.
  rewrite (findHandler_exact_registered _ r h Hd Hl) by now right.
  now rewrite (findHandler_exact_registered routes r h Hd Hh) by now right.
Qed.

Lemma serveAll_registered (rs : list Request) (p : Proc) (m : ServeMux) :
  DefaultServeMux p
    = <["/version" := handleVersion]>
        (<["/health" := handleHealth]> (<["/" := handleRoot]> m)) ->
  Forall (fun r => registeredPath (Path (url r))) rs ->
  serveAll rs p
    = Ret tt {| DefaultServeMux := DefaultServeMux p; stderr := stderr p;
                binds := binds p;
                exchanges := exchanges p ++ map (fun r => (r, reply r)) rs |}.
Proof.
  intros Hm Hrs. revert p Hm.
  induction Hrs as [|r rs Hr Hrs IH]; intros p Hm.
  - cbn. rewrite app_nil_r. now destruct p.
  - cbn [serveAll]. unfold bind at 1. unfold serveRequest.
    rewrite Hm, (ServeHTTP_registered m r _ Hr). rewrite IH by exact Hm.
    cbn. now rewrite <- app_assoc, Hm.
Qed.

Lemma HandleFunc_fresh (pat : string) (h : HandlerFunc) (p : Proc) :
  pat <> "" -> DefaultServeMux p !! pat = None ->
  HandleFunc pat h p
    = Ret tt {| DefaultServeMux := <[pat := h]> (DefaultServeMux p);
                stderr := stderr p; binds := binds p; exchanges := exchanges p |}.
Proof.
  intros Hne Hl. unfold HandleFunc, register.
  now rewrite bool_decide_eq_false_2, Hl by exact Hne.
Qed.

Lemma HandleFunc_conflict (pat : string) (h : HandlerFunc) (p : Proc) :
  pat <> "" -> is_Some (DefaultServeMux p !! pat) ->
  exists msg, HandleFunc pat h p = Halt (Panicked msg) p.
Proof.
  intros Hne [h' Hl]. unfold HandleFunc, register.
  rewrite bool_decide_eq_false_2, Hl by exact Hne. eauto.
Qed.

(** [main] from a process in which none of its patterns is registered:
    the process when [ListenAndServe] is called. *)
Lemma main_until_listen_from (d : string) (env : Env) (p : Proc) :
  DefaultServeMux p !! "/" = None ->
  DefaultServeMux p !! "/health" = None ->
  DefaultServeMux p !! "/version" = None ->
  main_with d env p
    = (err <- ListenAndServe env ":3000" ;;
       match err with Some err => log_Fatal err | None => ret tt end)
        {| DefaultServeMux :=
             <["/version" := handleVersion]>
               (<["/health" := handleHealth]>
                  (<["/" := handleRoot]> (DefaultServeMux p)));
           stderr := stderr p ++ [startLine];
           binds := binds p; exchanges := exchanges p |}.
Proof.
  intros H1 H2 H3. unfold main_with.
  unfold bind at 1. rewrite (HandleFunc_fresh "/" _ p) by (discriminate || exact H1).
  unfold bind at 1. rewrite HandleFunc_fresh
    by (discriminate || (cbn; now rewrite lookup_insert_ne)).
  unfold bind at 1. rewrite HandleFunc_fresh
    by (discriminate || (cbn; now rewrite !lookup_insert_ne)).
  reflexivity.
Qed.

(** X4. [main] registers on the default multiplexer, which other code of
    the process may have registered on before.  When all that was
    registered there are plain paths, none of them one of [main]'s three
    patterns, and every request that is handled is for one of the three
    paths, the requests are served exactly as by a process that began
    empty, and what the others registered stays registered. *)
Theorem routes_survive_other_patterns (env : Env) (p : Proc) :
  (forall pat, is_Some (DefaultServeMux p !! pat) -> plainPattern pat) ->
  DefaultServeMux p !! "/" = None ->
  DefaultServeMux p !! "/health" = None ->
  DefaultServeMux p !! "/version" = None ->
  bindError env ":3000" = None ->
  Forall (fun r => registeredPath (Path (url r))) (incoming env) ->
  exchanges (finalState (main env p)) = exchanges p ++ served env
  /\ forall pat, ~ registeredPath pat ->
       DefaultServeMux (finalState (main env p)) !! pat = DefaultServeMux p !! pat.
Proof.
  intros _ H1 H2 H3 Hb Hrs. unfold main.
  rewrite (main_until_listen_from _ env p H1 H2 H3), (served_bound env Hb).
  unfold ListenAndServe, bind, modify. cbn [binds stderr exchanges DefaultServeMux].
  rewrite Hb, (serveAll_registered _ _ (DefaultServeMux p)) by (reflexivity || exact Hrs).
  assert (Hother : forall pat, ~ registeredPath pat ->
            <["/version" := handleVersion]>
              (<["/health" := handleHealth]>
                 (<["/" := handleRoot]> (DefaultServeMux p))) !! pat
            = DefaultServeMux p !! pat).
  { intros pat Hpat. unfold registeredPath in Hpat.
    rewrite !lookup_insert_ne; [reflexivity| | |]; intros <-; tauto. }
  destruct (acceptError env); cbn; split; auto.
Qed.

Lemma routes_survive_other_patterns_witness :
  let rs := [request "GET" "/health"; request "POST" "/"] in
  exchanges (finalState (main (portFree rs) foreignProc))
    = [(request "GET" "/health", ok200 ("OK" +:+ Str.nl));
       (request "POST" "/", ok200 welcome)]
  /\ is_Some (DefaultServeMux (finalState (main (portFree rs) foreignProc)) !! "/debug/").
Proof.
  intros rs.
  destruct (routes_survive_other_patterns (portFree rs) foreignProc)
    as [Hx Hm]; try reflexivity.
  - intros pat [h Hpat]. unfold foreignProc in Hpat. cbn in Hpat.
    destruct (decide (pat = "/debug/")) as [->|Hne];
      [repeat split | now rewrite lookup_insert_ne, lookup_empty in Hpat].
  - repeat constructor; unfold registeredPath; cbn; tauto.
  - split.
    + rewrite Hx. vm_compute. reflexivity.
    + rewrite Hm; [vm_compute; eauto|].
      unfold registeredPath. intros [H|[H|H]]; discriminate H.
Defined.

(** X5. When one of [main]'s three patterns is registered on the default
    multiplexer already, as where other code of the process took it or
    where [main] is started a second time, [main] panics on the
    registration; it has then bound no listener and served nothing. *)
Theorem main_panics_on_taken_pattern (env : Env) (p : Proc) :
  is_Some (DefaultServeMux p !! "/")
  \/ is_Some (DefaultServeMux p !! "/health")
  \/ is_Some (DefaultServeMux p !! "/version") ->
  (exists msg, stopped (main env p) = Some (Panicked msg))
  /\ binds (finalState (main env p)) = binds p
  /\ exchanges (finalState (main env p)) = exchanges p.
Proof.
  intros Htaken. unfold main.
  destruct (DefaultServeMux p !! "/") as [h1|] eqn:H1.
  { destruct (HandleFunc_conflict "/" handleRoot p) as [msg Hc];
      [discriminate | rewrite H1; eauto |].
    assert (Hm : main_with defaultPort env p = Halt (Panicked msg) p)
      by (unfold main_with; unfold bind at 1; now rewrite Hc).
    rewrite Hm. cbn. eauto. }
  pose proof (HandleFunc_fresh "/" handleRoot p ltac:(discriminate) H1) as Hf1.
  set (p1 := {| DefaultServeMux := <["/" := handleRoot]> (DefaultServeMux p);
                stderr := stderr p; binds := binds p; exchanges := exchanges p |}) in *.
  destruct (DefaultServeMux p !! "/health") as [h2|] eqn:H2.
  { destruct (HandleFunc_conflict "/health" handleHealth p1) as [msg Hc];
      [discriminate | cbn; rewrite lookup_insert_ne, H2 by discriminate; eauto |].
    assert (Hm : main_with defaultPort env p = Halt (Panicked msg) p1)
      by (unfold main_with; unfold bind at 1; rewrite Hf1;
          unfold bind at 1; now rewrite Hc).
    rewrite Hm. cbn. eauto. }
  assert (H2' : DefaultServeMux p1 !! "/health" = None)
    by (cbn; now rewrite lookup_insert_ne by discriminate).
  pose proof (HandleFunc_fresh "/health" handleHealth p1 ltac:(discriminate) H2') as Hf2.
  set (p2 := {| DefaultServeMux := <["/health" := handleHealth]> (DefaultServeMux p1);
                stderr := stderr p1; binds := binds p1; exchanges := exchanges p1 |}) in *.
  destruct (DefaultServeMux p !! "/version") as [h3|] eqn:H3.
  { destruct (HandleFunc_conflict "/version" handleVersion p2) as [msg Hc];
      [discriminate | cbn; rewrite !lookup_insert_ne, H3 by discriminate; eauto |].
    assert (Hm : main_with defaultPort env p = Halt (Panicked msg) p2)
      by (unfold main_with; unfold bind at 1; rewrite Hf1;
          unfold bind at 1; rewrite Hf2; unfold bind at 1; now rewrite Hc).
    rewrite Hm. cbn. eauto. }
  destruct Htaken as [[? H]|[[? H]|[? H]]]; discriminate H.
Qed.

Lemma main_panics_on_taken_pattern_witness :
  let env := portFree [request "GET" "/"] in
  is_Some (DefaultServeMux takenProc !! "/health")
  /\ (exists msg, stopped (main env takenProc) = Some (Panicked msg))
  /\ binds (finalState (main env takenProc)) = binds takenProc
  /\ exchanges (finalState (main env takenProc)) = exchanges takenProc.
Proof.
  intros env.
  assert (H : is_Some (DefaultServeMux takenProc !! "/health")) by (vm_compute; eauto).
  split; [exact H|].
  exact (main_panics_on_taken_pattern env takenProc (or_intror (or_introl H))).
Defined.

(** ** The canonical form of a path is stable *)

Lemma cleanStep_kept (stack : list string) (seg : string) :
  keptSegment seg -> cleanStep stack seg = seg :: stack.
Proof.
  intros (H1 & H2 & H3 & _). unfold cleanStep.
  now rewrite !bool_decide_eq_false_2 by assumption.
Qed.

Lemma cleanStep_keeps (stack : list string) (seg : string) :
  Forall keptSegment stack -> noSlash seg = true ->
  Forall keptSegment (cleanStep stack seg).
Proof.
  intros Hst Hseg. unfold cleanStep.
  case_bool_decide as H1; [exact Hst|].
  case_bool_decide as H2; [exact Hst|]. cbn [orb].
  case_bool_decide as H3.
  - destruct stack; [constructor | now inversion Hst].
  - constructor; [repeat split; assumption | exact Hst].
Qed.

Lemma fold_cleanStep_keeps (segs stack : list string) :
  Forall keptSegment stack -> Forall (fun x => noSlash x = true) segs ->
  Forall keptSegment (fold_left cleanStep segs stack).
Proof.
  revert stack. induction segs as [|x segs IH]; intros stack Hst Hsegs; [exact Hst|].
  inversion Hsegs; subst. cbn. apply IH; [now apply cleanStep_keeps | assumption].
Qed.

Lemma fold_cleanStep_kept (segs stack : list string) :
  Forall keptSegment segs -> fold_left cleanStep segs stack = rev segs ++ stack.
Proof.
  revert stack. induction segs as [|x segs IH]; intros stack Hsegs; [reflexivity|].
  inversion Hsegs; subst. cbn [fold_left rev].
  rewrite cleanStep_kept by assumption. rewrite IH by assumption.
  now rewrite <- app_assoc.
Qed.

Lemma last_app (a b : string) : b <> "" -> Str.last (a +:+ b) = Str.last b.
Proof.
  intros Hb. induction a as [|c a IH]; [reflexivity|].
  change (String c a +:+ b) with (String c (a +:+ b)). cbn [Str.last].
  destruct (a +:+ b) eqn:E; [|exact IH].
  destruct a; [change (b = "") in E; congruence | discriminate].
Qed.

Lemma last_segment (x : string) :
  noSlash x = true -> x <> "" ->
  exists c, Str.last x = Some c /\ c <> Str.slash.
Proof.
  induction x as [|c x IH]; [congruence|].
  cbn [noSlash]. intros [Hc Hx]%andb_prop _.
  destruct x as [|c' x].
  - exists c. split; [reflexivity|].
    now apply negb_true_iff, bool_decide_eq_false in Hc.
  - apply IH; [exact Hx | discriminate].
Qed.

Lemma join_not_empty (x : string) (segs : list string) :
  x <> "" -> Str.join (x :: segs) <> "".
Proof.
  intros Hx. destruct x as [|c x]; [contradiction|].
  destruct segs; discriminate.
Qed.

Lemma last_join (segs : list string) :
  Forall keptSegment segs -> segs <> [] ->
  exists c, Str.last (Str.join segs) = Some c /\ c <> Str.slash.
Proof.
  induction segs as [|x segs IH]; [congruence|].
  intros Hall _. inversion Hall as [|? ? (Hx & _ & _ & Hns) Hrest]; subst.
  destruct segs as [|y rest]; [now apply last_segment|].
  change (Str.join (x :: y :: rest))
    with (x +:+ String Str.slash (Str.join (y :: rest))).
  rewrite last_app by discriminate.
  assert (Hj : Str.join (y :: rest) <> "").
  { inversion Hrest as [|? ? (Hy & _) _]; subst. now apply join_not_empty. }
  cbn [Str.last]. destruct (Str.join (y :: rest)) eqn:E; [congruence|].
  apply IH; [exact Hrest | discriminate].
Qed.

Lemma pathCleanRooted_canonical (segs : list string) (tail : list string) :
  Forall keptSegment segs -> tail = [] \/ tail = [""] ->
  String Str.slash
    (Str.join (rev (fold_left cleanStep ("" :: segs ++ tail) [])))
  = String Str.slash (Str.join segs).
Proof.
  intros Hall Htail. cbn [fold_left]. change (cleanStep [] "") with (@nil string).
  rewrite fold_left_app, (fold_cleanStep_kept segs [] Hall), app_nil_r.
  destruct Htail as [-> | ->]; cbn [fold_left];
    [|change (cleanStep (rev segs) "") with (rev segs)]; now rewrite rev_involutive.
Qed.

(** A rooted path made of kept segments is its own canonical form, with
    and without a slash at its end. *)
Lemma cleanPath_canonical (segs : list string) :
  Forall keptSegment segs ->
  cleanPath (String Str.slash (Str.join segs)) = String Str.slash (Str.join segs).
Proof.
  intros Hall. destruct segs as [|x rest]; [reflexivity|].
  assert (Hns : Forall (fun x => noSlash x = true) (x :: rest))
    by (eapply Forall_impl; [exact Hall | now intros ? (_ & _ & _ & ?)]).
  unfold cleanPath. rewrite bool_decide_eq_false_2 by discriminate.
  rewrite hasPrefix_rooted. unfold pathCleanRooted.
  change (Str.split (String Str.slash (Str.join (x :: rest))))
    with ("" :: Str.split (Str.join (x :: rest))).
  rewrite split_join by (exact Hns || discriminate).
  pose proof (pathCleanRooted_canonical (x :: rest) [] Hall (or_introl eq_refl)) as Hp.
  rewrite app_nil_r in Hp. rewrite Hp.
  destruct (last_join (x :: rest) Hall ltac:(discriminate)) as (c & Hc & Hne).
  assert (He : Str.endsWithSlash (String Str.slash (Str.join (x :: rest))) = false).
  { unfold Str.endsWithSlash.
    change (String Str.slash (Str.join (x :: rest)))
      with ("/" +:+ Str.join (x :: rest)).
    rewrite last_app, Hc; [now apply bool_decide_eq_false_2|].
    inversion Hall as [|? ? (Hx & _) _]; subst. now apply join_not_empty. }
  now rewrite He.
Qed.

Lemma cleanPath_canonical_slash (segs : list string) :
  Forall keptSegment segs -> segs <> [] ->
  cleanPath (String Str.slash (Str.join segs) +:+ "/")
  = String Str.slash (Str.join segs) +:+ "/".
Proof.
  intros Hall Hne.
  assert (Hns : Forall (fun x => noSlash x = true) segs)
    by (eapply Forall_impl; [exact Hall | now intros ? (_ & _ & _ & ?)]).
  assert (Hj : Str.join segs <> "").
  { destruct segs as [|x rest]; [congruence|].
    inversion Hall as [|? ? (Hx & _) _]; subst. now apply join_not_empty. }
  unfold cleanPath.
  change (String Str.slash (Str.join segs) +:+ "/")
    with (String Str.slash (Str.join segs +:+ "/")).
  rewrite bool_decide_eq_false_2 by discriminate.
  rewrite hasPrefix_rooted. unfold pathCleanRooted.
  change (Str.split (String Str.slash (Str.join segs +:+ "/")))
    with ("" :: Str.split (Str.join segs +:+ "/")).
  rewrite split_app_slash, split_join by assumption.
  rewrite (pathCleanRooted_canonical segs [""] Hall (or_intror eq_refl)).
  change (String Str.slash (Str.join segs +:+ "/"))
    with (String Str.slash (Str.join segs) +:+ "/").
  rewrite endsWithSlash_app_slash.
  rewrite bool_decide_eq_false_2; [reflexivity|].
  intros [= H]. contradiction.
Qed.

Lemma cleanPath_idempotent (p : string) : cleanPath (cleanPath p) = cleanPath p.
Proof.
  unfold cleanPath at 2 3. case_bool_decide; [reflexivity|].
  set (p' := if Str.hasPrefix p "/" then p else "/" +:+ p).
  unfold pathCleanRooted.
  set (segs := rev (fold_left cleanStep (Str.split p') [])).
  assert (Hall : Forall keptSegment segs).
  { apply Forall_rev, fold_cleanStep_keeps; [constructor | apply split_noSlash]. }
  destruct (Str.endsWithSlash p' && negb (bool_decide (String Str.slash (Str.join segs) = "/")))
    eqn:E.
  - apply cleanPath_canonical_slash; [exact Hall|].
    intros Hnil. rewrite Hnil in E. cbn in E. now rewrite andb_false_r in E.
  - now apply cleanPath_canonical.
Qed.

(** ** Following a redirect *)

Lemma reply_redirected (r : Request) (u : URL) :
  reply r = Redirected u ->
  Path (url r) <> "*" /\ findHandler routes r = ToRedirect u.
Proof.
  unfold reply, ServeHTTP. case_bool_decide as Hs; [discriminate|].
  intros H. split; [exact Hs|]. revert H.
  destruct (findHandler routes r) as [pat h| |] eqn:E; try discriminate.
  - apply findHandler_registered in E. rewrite routes_lookup in E.
    repeat case_bool_decide; try discriminate; injection E as <-.
    + now rewrite handleVersion_fresh.
    + now rewrite handleHealth_fresh.
    + now rewrite handleRoot_fresh.
  - now intros [= ->].
Qed.

(** X6. No redirect of this server leads to another redirect: when a
    request whose path is empty or begins with a slash is answered with a
    redirect, the same request sent to the target of the redirect is
    answered by a handler, with status 200. *)
Theorem redirect_leads_to_handler (env : Env) (r : Request) (u : URL) :
  In (r, Redirected u) (served env) ->
  Path (url r) = "" \/ Str.hasPrefix (Path (url r)) "/" = true ->
  In (follow r u) (incoming env) ->
  exists body, In (follow r u, ok200 body) (served env)
               /\ forall a, In (follow r u, a) (served env) -> a = ok200 body.
Proof.
  intros Hin Hp Hnext.
  assert (Hb : bindError env ":3000" = None).
  { destruct (bindError env ":3000") as [e|] eqn:Hb; [|reflexivity].
    now rewrite (served_unbound env e Hb) in Hin. }
  apply served_reply in Hin. symmetry in Hin. apply reply_redirected in Hin as [_ Hin].
  assert (Hok : exists body, reply (follow r u) = ok200 body).
  { destruct (decide (Method r = "CONNECT")) as [Hm|Hm].
    - destruct Hp as [Hp|Hp].
      + rewrite (findHandler_connect_empty r Hm Hp) in Hin. discriminate Hin.
      + apply hasPrefix_slash in Hp as [s Hs].
        rewrite (findHandler_connect_rooted r s Hm Hs) in Hin.
        unfold routeOf in Hin. repeat case_bool_decide; discriminate.
    - destruct (decide (cleanPath (Path (url r)) = Path (url r))) as [Hc|Hc].
      + rewrite (findHandler_clean r Hm Hc) in Hin.
        unfold routeOf in Hin. repeat case_bool_decide; discriminate.
      + rewrite (findHandler_unclean r Hm Hc) in Hin. injection Hin as <-.
        destruct (cleanPath_rooted (Path (url r))) as [s Hs].
        apply (reply_routeOf_ok _ (cleanPath (Path (url r)))).
        * exact (rooted_not_asterisk _ s Hs).
        * exact (findHandler_clean
                   (follow r {| Path := cleanPath (Path (url r));
                                RawQuery := RawQuery (url r) |})
                   Hm (cleanPath_idempotent (Path (url r)))). }
  destruct Hok as [body Hok]. exists body. split.
  - rewrite <- Hok. now apply served_incoming.
  - intros a Ha. now rewrite (served_reply env _ a Ha).
Qed.

Lemma redirect_leads_to_handler_witness :
  let r := request "GET" "/a/../health" in
  let u := {| Path := "/health"; RawQuery := "" |} in
  let env := portFree [r; follow r u] in
  (In (r, Redirected u) (served env)
   /\ Str.hasPrefix (Path (url r)) "/" = true
   /\ In (follow r u) (incoming env))
  /\ exists body, In (follow r u, ok200 body) (served env)
                  /\ forall a, In (follow r u, a) (served env) -> a = ok200 body.
Proof.
  intros r u env.
  assert (H1 : In (r, Redirected u) (served env)) by (vm_compute; left; reflexivity).
  assert (H2 : In (follow r u) (incoming env)) by (right; left; reflexivity).
  split; [split; [exact H1 | split; [reflexivity | exact H2]]|].
  exact (redirect_leads_to_handler env r u H1 (or_intror eq_refl) H2).
Defined.


(** ** Which requests reach the two exact routes *)

Lemma matching_keys (segs c : list string) (pat : string) :
  In c (matching segs) -> keyOf c = Some pat -> Str.endsWithSlash pat = false ->
  keyOf segs = Some pat.
Proof.
  unfold matching. intros [<-|[pre [<- _]]%in_map_iff] Hk He; [exact Hk|].
  apply keyOf_subtree in Hk. congruence.
Qed.

(** A pattern that names no subtree is reached only by requests whose
    path, with its segments unescaped, is that pattern. *)
Lemma matchPath_pattern (mux : ServeMux) (path : string) pat h :
  matchPath mux path = Some (pat, h) -> Str.endsWithSlash pat = false ->
  decodedPath path = Some pat.
Proof.
  unfold matchPath, decodedPath. destruct (pathSegments path) as [segs|]; [|discriminate].
  intros [_ (c & Hin & Hk)]%firstRegistered_registered He.
  exact (matching_keys segs c pat Hin Hk He).
Qed.

Lemma findHandler_pattern_exact (mux : ServeMux) (r : Request) pat h :
  findHandler mux r = ToHandler pat h -> Str.endsWithSlash pat = false ->
  decodedPath (Path (url r)) = Some pat.
Proof.
  unfold findHandler. intros Hf Hpat.
  case_bool_decide.
  - destruct (matchOrRedirect mux _ (Some _)); [|discriminate].
    destruct (matchOrRedirect mux _ None) as [[[pat' h']|]|] eqn:E; try discriminate.
    injection Hf as -> ->. apply matchOrRedirect_match in E.
    symmetry in E. now apply matchPath_pattern in E.
  - destruct (matchOrRedirect mux _ (Some _)) as [n|] eqn:E; [|discriminate].
    case_bool_decide as Hc; [|discriminate]. cbn [negb] in Hf.
    destruct n as [[pat' h']|]; [|discriminate].
    injection Hf as -> ->. apply matchOrRedirect_match in E.
    symmetry in E. apply matchPath_pattern in E; [|exact Hpat]. now rewrite Hc in E.
Qed.

(** A response with a body on the wire is the one the handler wrote. *)
Lemma onWire_body (r : Request) (a : Response) (body : string) :
  body <> "" -> onWire r a = ok200 body -> a = ok200 body.
Proof.
  intros Hbody. unfold onWire.
  destruct (expectationFails r); [discriminate|].
  destruct (_ && _); [intros [= Hw]; congruence|].
  destruct a as [resp| | | | | |]; try discriminate.
  unfold transmit. case_bool_decide as Hm; [intros [= _ _ _ Hw]; congruence | auto].
Qed.

(** X7. The converse of the routes for [/health] and [/version]: a client
    receives status 200 with the body [OK] and a line feed only for a
    request whose path, with its segments unescaped, is [/health] (not for
    [/health/] or a longer path), and status 200 with the version line only
    for a request whose path, unescaped, is [/version]. *)
Theorem exact_routes_only (env : Env) (r : Request) :
  (In (r, ok200 ("OK" +:+ Str.nl)) (received env) ->
   decodedPath (Path (url r)) = Some "/health")
  /\ (In (r, ok200 ("Version: 1.0.0" +:+ Str.nl)) (received env) ->
      decodedPath (Path (url r)) = Some "/version").
Proof.
  assert (H : forall body, In (r, ok200 body) (received env) ->
            body <> "" -> body <> welcome ->
            exists pat h, findHandler routes r = ToHandler pat h
                          /\ (pat = "/health" \/ pat = "/version")
                          /\ h r {| w := freshResponse; errorLog := [] |}
                             = Ret tt {| w := mkResponse true StatusOK [] body;
                                         errorLog := [] |}).
  { intros body Hin Hne Hbody. apply received_reply in Hin. symmetry in Hin.
    apply (onWire_body r _ body Hne) in Hin. revert Hin.
    unfold reply, ServeHTTP. case_bool_decide; [discriminate|].
    destruct (findHandler routes r) as [pat h| |] eqn:E; try discriminate.
    pose proof (findHandler_registered _ _ _ _ E) as Hl.
    rewrite routes_lookup in Hl.
    repeat case_bool_decide; try discriminate; injection Hl as <-; subst.
    - rewrite handleVersion_fresh. intros [= <-].
      eexists _, _. split; [reflexivity|]. split; [now right | reflexivity].
    - rewrite handleHealth_fresh. intros [= <-].
      eexists _, _. split; [reflexivity|]. split; [now left | reflexivity].
    - rewrite handleRoot_fresh. intros [= Hw]. now symmetry in Hw. }
  split; intros Hin;
    destruct (H _ Hin ltac:(discriminate) ltac:(discriminate))
      as (pat & h & Hf & Hpat & Hh).
  - destruct Hpat as [-> | ->].
    + now apply findHandler_pattern_exact in Hf.
    + pose proof (findHandler_registered _ _ _ _ Hf) as Hl.
      rewrite routes_lookup in Hl. injection Hl as <-.
      rewrite handleVersion_fresh in Hh. discriminate Hh.
  - destruct Hpat as [-> | ->].
    + pose proof (findHandler_registered _ _ _ _ Hf) as Hl.
      rewrite routes_lookup in Hl. injection Hl as <-.
      rewrite handleHealth_fresh in Hh. discriminate Hh.
    + now apply findHandler_pattern_exact in Hf.
Qed.

Lemma exact_routes_only_witness :
  let r := request "GET" "/%68ealth" in
  In (r, ok200 ("OK" +:+ Str.nl)) (received (portFree [r]))
  /\ decodedPath (Path (url r)) = Some "/health".
Proof.
  intros r.
  assert (H : In (r, ok200 ("OK" +:+ Str.nl)) (received (portFree [r])))
    by (vm_compute; left; reflexivity).
  split; [exact H|].
  exact (proj1 (exact_routes_only (portFree [r]) r) H).
Defined.
